(** * Host routing hack of the kubevirt cluster-api provider

    A shallow embedding of package [metastonehack] (gateway resolution,
    route reconciliation, interface lookup, offload/MTU tuning) and of the
    client constructors of package [workloadcluster], with the properties
    their specification states about them. *)

From Stdlib Require Import String Ascii NArith List Bool Lia.
From Stdlib Require Import DecimalString.
From stdpp Require Import gmap strings.

Import ListNotations.
Open Scope string_scope.
Open Scope list_scope.

(** ** Go strings *)

Module gostrings.

(** [s[n:]] *)
Fixpoint drop (n : nat) (s : string) : string :=
  match n, s with
  | O, _ => s
  | S n', String _ s' => drop n' s'
  | S _, EmptyString => EmptyString
  end.

(** [s[:n]] *)
Definition take (n : nat) (s : string) : string := String.substring 0 n s.

(** [strings.HasPrefix(s, p)] *)
Fixpoint HasPrefix (s p : string) {struct p} : bool :=
  match p, s with
  | EmptyString, _ => true
  | String a p', String b s' => Ascii.eqb a b && HasPrefix s' p'
  | String _ _, EmptyString => false
  end.

(** [strings.Contains(s, substr)]: [substr] occurs at some offset of [s]. *)
Fixpoint Contains (s substr : string) : bool :=
  HasPrefix s substr ||
  match s with
  | EmptyString => false
  | String _ s' => Contains s' substr
  end.

(** [bytealg.IndexByteString(s, c)], [None] for -1. *)
Fixpoint IndexByte (s : string) (c : ascii) : option nat :=
  match s with
  | EmptyString => None
  | String a s' =>
      if Ascii.eqb a c then Some O
      else match IndexByte s' c with
           | Some i => Some (S i)
           | None => None
           end
  end.

(** Decimal rendering of a non-negative integer ([%d], [ubtoa]). *)
Definition itoa (n : N) : string := NilEmpty.string_of_uint (N.to_uint n).

End gostrings.

(** ** The part of Go's package [net] the gateway resolver calls *)

Module net.
Import gostrings.

(** [net.IP] and [net.IPMask] are byte slices. *)
Definition IP := list N.
Definition IPMask := list N.

Record IPNet := { IPNet_IP : IP; IPNet_Mask : IPMask }.

Definition IPv4len : nat := 4.
Definition IPv6len : nat := 16.

Definition byte (n : N) : N := (n mod 256)%N.

Definition v4InV6Prefix : list N := [0; 0; 0; 0; 0; 0; 0; 0; 0; 0; 255; 255]%N.

(** [net.IPv4(a, b, c, d)]: the 16-byte form of an IPv4 address. *)
Definition IPv4 (a b c d : N) : IP := v4InV6Prefix ++ [a; b; c; d].

Definition isDigit (c : ascii) : bool :=
  (48 <=? N_of_ascii c)%N && (N_of_ascii c <=? 57)%N.

(** Bigger than we need, not too big to worry about overflow. *)
Definition big : N := 16777215.

(** [dtoi]: decimal to integer; number, characters consumed, success. *)
Fixpoint dtoi_from (s : string) (n : N) (i : nat) : N * nat * bool :=
  match s with
  | String c s' =>
      if isDigit c then
        let n' := (n * 10 + (N_of_ascii c - 48))%N in
        if (big <=? n')%N then (big, i, false) else dtoi_from s' n' (S i)
      else if Nat.eqb i 0 then (0%N, O, false) else (n, i, true)
  | EmptyString => if Nat.eqb i 0 then (0%N, O, false) else (n, i, true)
  end.

Definition dtoi (s : string) : N * nat * bool := dtoi_from s 0%N O.

Definition firstIs (s : string) (c : ascii) : bool :=
  match s with
  | String a _ => Ascii.eqb a c
  | EmptyString => false
  end.

(** The loop of [parseIPv4]: [todo] octets are still to be read, [i > 0]
    is [negb first].  Returns the octets read and the unread input. *)
Fixpoint parseIPv4_loop (todo : nat) (first : bool) (s : string)
  : option (list N * string) :=
  match todo with
  | O => Some ([], s)
  | S todo' =>
      if Nat.eqb (String.length s) 0 then None (* missing octets *)
      else if negb first && negb (firstIs s ".") then None
      else
        let s := if first then s else drop 1 s in
        let '(n, c, ok) := dtoi s in
        if negb ok || (255 <? n)%N then None
        else if Nat.ltb 1 c && firstIs s "0" then None (* leading zeroes *)
        else
          match parseIPv4_loop todo' false (drop c s) with
          | Some (p, rest) => Some (byte n :: p, rest)
          | None => None
          end
  end.

(** [parseIPv4]: d.d.d.d, the whole string. *)
Definition parseIPv4 (s : string) : option IP :=
  match parseIPv4_loop IPv4len true s with
  | Some ([a; b; c; d], EmptyString) => Some (IPv4 a b c d)
  | _ => None
  end.

(** [CIDRMask(ones, bits)] for [bits = 8 * l]. *)
Fixpoint CIDRMask_bytes (l : nat) (n : N) : IPMask :=
  match l with
  | O => []
  | S l' =>
      if (8 <=? n)%N then 255%N :: CIDRMask_bytes l' (n - 8)
      else N.lxor 255 (N.shiftr 255 n) :: CIDRMask_bytes l' 0
  end.

Definition CIDRMask (ones : N) (bits : nat) : option IPMask :=
  if negb (Nat.eqb bits (8 * IPv4len)) && negb (Nat.eqb bits (8 * IPv6len))
  then None
  else if (N.of_nat bits <? ones)%N then None
  else Some (CIDRMask_bytes (bits / 8) ones).

(** [ip.To4()]: the 4-byte form, [None] for Go's nil. *)
Definition To4 (ip : IP) : option IP :=
  match ip with
  | [a; b; c; d] => Some ip
  | [z0; z1; z2; z3; z4; z5; z6; z7; z8; z9; f0; f1; a; b; c; d] =>
      if forallb (N.eqb 0) [z0; z1; z2; z3; z4; z5; z6; z7; z8; z9]
         && N.eqb f0 255 && N.eqb f1 255
      then Some [a; b; c; d]
      else None
  | _ => None
  end.

Definition allFF (m : list N) : bool := forallb (N.eqb 255) m.

Fixpoint bytesEqual (a b : list N) : bool :=
  match a, b with
  | [], [] => true
  | x :: a', y :: b' => N.eqb x y && bytesEqual a' b'
  | _, _ => false
  end.

Fixpoint andBytes (ip mask : list N) : list N :=
  match ip, mask with
  | x :: ip', m :: mask' => N.land x m :: andBytes ip' mask'
  | _, _ => []
  end.

(** [ip.Mask(mask)], [None] for Go's nil. *)
Definition Mask (ip : IP) (mask : IPMask) : option IP :=
  let mask :=
    if Nat.eqb (length mask) IPv6len && Nat.eqb (length ip) IPv4len
       && allFF (firstn 12 mask)
    then skipn 12 mask else mask in
  let ip :=
    if Nat.eqb (length mask) IPv4len && Nat.eqb (length ip) IPv6len
       && bytesEqual (firstn 12 ip) v4InV6Prefix
    then skipn 12 ip else ip in
  if Nat.eqb (length ip) (length mask) then Some (andBytes ip mask) else None.

(** A nil slice read as a slice: it has no bytes. *)
Definition nilable (o : option (list N)) : list N :=
  match o with Some l => l | None => [] end.

(** [ip.Equal(x)]: same address, an IPv4 address and its 16-byte form
    being the same. *)
Definition Equal (ip x : IP) : bool :=
  if Nat.eqb (length ip) (length x) then bytesEqual ip x
  else if Nat.eqb (length ip) IPv4len && Nat.eqb (length x) IPv6len
  then bytesEqual (firstn 12 x) v4InV6Prefix && bytesEqual ip (skipn 12 x)
  else if Nat.eqb (length ip) IPv6len && Nat.eqb (length x) IPv4len
  then bytesEqual (firstn 12 ip) v4InV6Prefix && bytesEqual (skipn 12 ip) x
  else false.

Section Parse.

(** The textual IPv6 side of package [net] is not part of this repository
    and no property below depends on what it accepts: it is a parameter. *)
Variable parseIPv6 : string -> option IP.
Variable ipv6String : IP -> string.

(** [net.ParseCIDR(s)]: the address written in [s] and the network it
    lies in; [None] stands for the [ParseError] of type "CIDR address". *)
Definition ParseCIDR (s : string) : option (IP * IPNet) :=
  match IndexByte s "/" with
  | None => None
  | Some i =>
      let addr := take i s in
      let mask := drop (S i) s in
      let '(iplen, ip) :=
        match parseIPv4 addr with
        | Some ip => (IPv4len, Some ip)
        | None => (IPv6len, parseIPv6 addr)
        end in
      let '(n, j, ok) := dtoi mask in
      match ip with
      | None => None
      | Some ip =>
          if negb ok || negb (Nat.eqb j (String.length mask))
             || (N.of_nat (8 * iplen) <? n)%N
          then None
          else
            let m := nilable (CIDRMask n (8 * iplen)) in
            Some (ip, {| IPNet_IP := nilable (Mask ip m); IPNet_Mask := m |})
      end
  end.

(** The message of the [ParseError] that [ParseCIDR] returns. *)
Definition ParseCIDR_error (s : string) : string :=
  "invalid CIDR address: " +:+ s.

(** [net.ParseIP(s)]: the first '.' or ':' of [s] selects the parser. *)
Fixpoint ParseIP_scan (whole s : string) : option IP :=
  match s with
  | EmptyString => None
  | String c s' =>
      if Ascii.eqb c "." then parseIPv4 whole
      else if Ascii.eqb c ":" then parseIPv6 whole
      else ParseIP_scan whole s'
  end.

Definition ParseIP (s : string) : option IP := ParseIP_scan s s.

(** [ip.String()] *)
Definition IP_String (ip : IP) : string :=
  match ip with
  | [] => "<nil>"
  | _ =>
      match To4 ip with
      | Some [a; b; c; d] =>
          itoa a +:+ "." +:+ itoa b +:+ "." +:+ itoa c +:+ "." +:+ itoa d
      | _ => ipv6String ip
      end
  end.

End Parse.

End net.

(** ** The host the code acts on *)

Module host.

(** An error value returned by a library or a command, by its message. *)
Definition goerror := string.

(** What [os.Stat] tells about a file. *)
Record FileInfo := { fi_name : string; fi_size : nat }.

(** [netlink.Link], by the attributes the code reads. *)
Record Link := { Attrs_Name : string; Attrs_Index : nat }.

(** [netlink.Addr], by the address of its embedded [IPNet]. *)
Record Addr := { Addr_IP : net.IP }.

(** The capabilities of the host the two packages use: running a command
    and collecting its combined output, looking at a file, writing a file,
    listing the network links and the addresses of a link.  A result pairs
    the value with the error, as the Go functions return them. *)
Class Host (H : Type) := {
  CombinedOutput : string -> list string -> H -> (string * option goerror) * H;
  Stat : string -> H -> option FileInfo * option goerror;
  WriteFile : string -> string -> H -> option goerror * H;
  LinkList : H -> list Link * option goerror;
  AddrList : Link -> H -> list Addr * option goerror
}.

(** What a run did to the outside, in order. *)
Inductive Event :=
| Exec (name : string) (args : list string)
| Write (filename data : string)
| Print (text : string).

Record World (H : Type) := { hostOf : H; trace : list Event }.
Arguments hostOf {H} _.
Arguments trace {H} _.

(** Computations that act on the host and record what they did. *)
Definition M (H A : Type) : Type := World H -> A * World H.

Definition ret {H A} (a : A) : M H A := fun w => (a, w).

Definition bind {H A B} (c : M H A) (k : A -> M H B) : M H B :=
  fun w => let '(a, w') := c w in k a w'.

Declare Scope host_scope.
Delimit Scope host_scope with host.
Notation "x <- c ;; k" := (bind c (fun x => k))
  (at level 100, c at next level, right associativity) : host_scope.
Notation "c1 ;; c2" := (bind c1 (fun _ => c2))
  (at level 100, right associativity) : host_scope.

Section Actions.
Context {H : Type} `{Host H}.

Definition emit (e : Event) : M H unit :=
  fun w => (tt, {| hostOf := hostOf w; trace := trace w ++ [e] |}).

(** [exec.Command(name, args...).CombinedOutput()] *)
Definition exec_Command (name : string) (args : list string)
  : M H (string * option goerror) :=
  fun w =>
    let '(r, h') := CombinedOutput name args (hostOf w) in
    (r, {| hostOf := h'; trace := trace w ++ [Exec name args] |}).

(** [os.Stat(filename)] *)
Definition os_Stat (filename : string) : M H (option FileInfo * option goerror) :=
  fun w => (Stat filename (hostOf w), w).

(** [os.WriteFile(filename, data, perm)] *)
Definition os_WriteFile (filename data : string) : M H (option goerror) :=
  fun w =>
    let '(r, h') := WriteFile filename data (hostOf w) in
    (r, {| hostOf := h'; trace := trace w ++ [Write filename data] |}).

(** [fmt.Printf] of an already formatted text. *)
Definition fmt_Printf (text : string) : M H unit := emit (Print text).

(** [netlink.LinkList()] *)
Definition netlink_LinkList : M H (list Link * option goerror) :=
  fun w => (LinkList (hostOf w), w).

(** [netlink.AddrList(link, netlink.FAMILY_ALL)] *)
Definition netlink_AddrList (link : Link) : M H (list Addr * option goerror) :=
  fun w => (AddrList link (hostOf w), w).

(** Start from host [h] with nothing done yet. *)
Definition run {A} (c : M H A) (h : H) : A * World H :=
  c {| hostOf := h; trace := [] |}.

End Actions.

#[export] Instance Event_eq_dec : EqDecision Event.
Proof. solve_decision. Defined.

(** How many times the trace [t] has the event [e]. *)
Definition occurrences (e : Event) (t : list Event) : nat :=
  length (List.filter (fun e' => bool_decide (e' = e)) t).

(** The two [ip] commands of the route reconciler. *)
Definition ipRouteShow : Event := Exec "ip" ["route"; "show"].

Definition ipRouteAdd (route gw : string) : Event :=
  Exec "ip" ["route"; "add"; route; "via"; gw].

(** The two commands of the offload/MTU tuner. *)
Definition ethtoolOffload (iface : string) : Event :=
  Exec "/usr/sbin/ethtool" ["--offload"; iface; "tx"; "off"].

Definition sysctlProbing : Event :=
  Exec "/usr/sbin/sysctl" ["-w"; "net.ipv4.tcp_mtu_probing=1"].

(** Commands run and files written, the events that can change the host. *)
Definition isExec (e : Event) : bool :=
  match e with Exec _ _ => true | _ => false end.

Definition isWrite (e : Event) : bool :=
  match e with Write _ _ => true | _ => false end.

Definition commands (t : list Event) : list Event := List.filter isExec t.
Definition writes (t : list Event) : list Event := List.filter isWrite t.

End host.

(** ** The Kubernetes objects the code reads *)

Module k8s.
Import host.

(** [msnetv1.TenantApiServer], by the fields read. *)
Record TenantApiServer := { Spec_Tenant : string; Spec_Subnet : string }.

(** [corev1.Secret], by its data. *)
Record Secret := { Data : gmap string string }.

Record ObjectKey := { Namespace : string; Name : string }.

(** [client.Client] of controller-runtime, by the two reads the code makes:
    listing the tenant API servers of a namespace that match a field, and
    getting a secret. *)
Record Client := {
  List : string -> string * string -> list TenantApiServer * option goerror;
  Get : ObjectKey -> Secret * option goerror
}.

End k8s.

(** ** Package [metastonehack] *)

Module metastonehack.
Import gostrings host k8s.
Open Scope host_scope.

(** The error taxonomy of the specification. *)
Inductive ErrorKind :=
| InvalidSubnet | InvalidIP | ConfigurationError | RouteConflict
| RouteAddFailed | InterfaceNotFound | OffloadDisableFailed
| MTUProbingEnableFailed | Unclassified.

(** One constructor for each [fmt.Errorf] of the package, with the values
    its format string prints and the cause it wraps. *)
Inductive error :=
| ErrListTenants (cause : goerror)
| ErrTenantCount (tenant ns : string)
| ErrSubnetEmpty (tenant ns : string)
| ErrSubnetParse (tenant ns subnet : string) (cause : goerror)
| ErrSubnetNotIPv4 (tenant ns gw : string)
| ErrCheckRoutes (cause : goerror)
| ErrRouteConflict (route gw : string)
| ErrRouteAdd (route gw : string) (cause : goerror)
| ErrInvalidIP (ip : string)
| ErrListInterfaces (cause : goerror)
| ErrListAddrs (iface : string) (cause : goerror)
| ErrNoInterface (ip : string)
| ErrOffload (cause : goerror)
| ErrMTUProbing (cause : goerror).

(** [err.Error()] *)
Definition Error (e : error) : string :=
  match e with
  | ErrListTenants c => "failed to list tenantapiservers: " +:+ c
  | ErrTenantCount t ns =>
      "unexpected configuration: " +:+ t +:+ " in namespace " +:+ ns
      +:+ " either has no subnet or has multiple subnet"
  | ErrSubnetEmpty t ns =>
      "unexpected configuration: " +:+ t +:+ " in namespace " +:+ ns
      +:+ "'s subnet is empty"
  | ErrSubnetParse t ns subnet c =>
      "unexpected configuration: " +:+ t +:+ " in namespace " +:+ ns
      +:+ " has invalid subnet " +:+ subnet +:+ ": " +:+ c
  | ErrSubnetNotIPv4 t ns gw =>
      "unexpected configuration: " +:+ t +:+ " in namespace " +:+ ns
      +:+ "'s subnet " +:+ gw +:+ " is not IPv4"
  | ErrCheckRoutes c => "failed to check existing routes: " +:+ c
  | ErrRouteConflict route gw =>
      "route " +:+ route
      +:+ " exists but points to a different gateway. Expected gateway: " +:+ gw
  | ErrRouteAdd route gw c =>
      "failed to add route " +:+ route +:+ " via " +:+ gw +:+ ": " +:+ c
  | ErrInvalidIP ip => "invalid IP address: " +:+ ip
  | ErrListInterfaces c => "failed to list network interfaces: " +:+ c
  | ErrListAddrs iface c =>
      "failed to get addresses for interface " +:+ iface +:+ ": " +:+ c
  | ErrNoInterface ip => "no interface found for IP address " +:+ ip
  | ErrOffload c => "failed to disable TX offload using ethtool: " +:+ c
  | ErrMTUProbing c => "failed to enable TCP MTU probing using sysctl: " +:+ c
  end.

(** The name the specification gives each error; the failures of the
    listing calls and of [ip route show] have none. *)
Definition kind (e : error) : ErrorKind :=
  match e with
  | ErrTenantCount _ _ | ErrSubnetEmpty _ _ => ConfigurationError
  | ErrSubnetParse _ _ _ _ | ErrSubnetNotIPv4 _ _ _ => InvalidSubnet
  | ErrRouteConflict _ _ => RouteConflict
  | ErrRouteAdd _ _ _ => RouteAddFailed
  | ErrInvalidIP _ => InvalidIP
  | ErrNoInterface _ => InterfaceNotFound
  | ErrOffload _ => OffloadDisableFailed
  | ErrMTUProbing _ => MTUProbingEnableFailed
  | ErrListTenants _ | ErrCheckRoutes _
  | ErrListInterfaces _ | ErrListAddrs _ _ => Unclassified
  end.

Definition nl : string := String (ascii_of_nat 10) EmptyString.

Section Package.
Variable parseIPv6 : string -> option net.IP.
Variable ipv6String : net.IP -> string.
Context {H : Type} `{Host H}.

Definition defaultTenantName : string := "ten-mng".
Definition defaultTenantsNamespace : string := "ten-mng".

(** Lines 69-81 of [getManagerGWFromDefaultTenant]: process the subnet and
    get the .2 address. *)
Definition managerGWOfSubnet (defaultTenantsSubnet : string)
  : string * option error :=
  match net.ParseCIDR parseIPv6 defaultTenantsSubnet with
  | None =>
      ("", Some (ErrSubnetParse defaultTenantName defaultTenantsNamespace
                   defaultTenantsSubnet
                   (net.ParseCIDR_error defaultTenantsSubnet)))
  | Some (managerGW, _) =>
      match net.To4 managerGW with
      | None =>
          ("", Some (ErrSubnetNotIPv4 defaultTenantName defaultTenantsNamespace
                       (net.IP_String ipv6String [])))
      | Some managerGW =>
          let managerGW := <[3 := 2%N]> managerGW in
          (net.IP_String ipv6String managerGW, None)
      end
  end.

Definition getManagerGWFromDefaultTenant (runtimeClient : Client)
  : string * option error :=
  let '(items, err) :=
    List runtimeClient defaultTenantsNamespace ("spec.tenant", defaultTenantName) in
  match err with
  | Some e => ("", Some (ErrListTenants e))
  | None =>
      match items with
      | [item] =>
          let defaultTenantsSubnet := Spec_Subnet item in
          if String.eqb defaultTenantsSubnet ""
          then ("", Some (ErrSubnetEmpty defaultTenantName defaultTenantsNamespace))
          else managerGWOfSubnet defaultTenantsSubnet
      | _ => ("", Some (ErrTenantCount defaultTenantName defaultTenantsNamespace))
      end
  end.

Definition checkAndAddRoute (apiServersIP managerGW : string)
  : M H (option error) :=
  let routeToCheck := apiServersIP +:+ "/32" in
  r <- exec_Command "ip" ["route"; "show"] ;;
  let '(output, err) := r in
  match err with
  | Some e => ret (Some (ErrCheckRoutes e))
  | None =>
      let outputStr := output in
      fmt_Printf ("Routing rules: " +:+ outputStr +:+ "." +:+ nl) ;;
      if Contains outputStr routeToCheck && Contains outputStr managerGW then
        fmt_Printf ("Route " +:+ routeToCheck
                    +:+ " already exists via manager gateway "
                    +:+ managerGW +:+ "." +:+ nl) ;;
        ret None
      else if Contains outputStr routeToCheck
              && negb (Contains outputStr managerGW) then
        ret (Some (ErrRouteConflict routeToCheck managerGW))
      else
        r <- exec_Command "ip" ["route"; "add"; routeToCheck; "via"; managerGW] ;;
        match snd r with
        | Some e => ret (Some (ErrRouteAdd routeToCheck managerGW e))
        | None =>
            fmt_Printf ("Route " +:+ routeToCheck +:+ " added successfully via "
                        +:+ managerGW +:+ "." +:+ nl) ;;
            ret None
        end
  end.

(** The inner loop of [getInterfaceNameByIP]: is [targetIP] among [addrs]? *)
Fixpoint ownsIP (addrs : list Addr) (targetIP : net.IP) : bool :=
  match addrs with
  | [] => false
  | addr :: addrs' =>
      if net.Equal (Addr_IP addr) targetIP then true else ownsIP addrs' targetIP
  end.

(** The outer loop of [getInterfaceNameByIP]. *)
Fixpoint findInterface (interfaces : list Link) (targetIP : net.IP) (ip : string)
  : M H (string * option error) :=
  match interfaces with
  | [] => ret ("", Some (ErrNoInterface ip))
  | iface :: rest =>
      r <- netlink_AddrList iface ;;
      let '(addrs, err) := r in
      match err with
      | Some e => ret ("", Some (ErrListAddrs (Attrs_Name iface) e))
      | None =>
          if ownsIP addrs targetIP then ret (Attrs_Name iface, None)
          else findInterface rest targetIP ip
      end
  end.

Definition getInterfaceNameByIP (ip : string) : M H (string * option error) :=
  match net.ParseIP parseIPv6 ip with
  | None => ret ("", Some (ErrInvalidIP ip))
  | Some targetIP =>
      r <- netlink_LinkList ;;
      let '(interfaces, err) := r in
      match err with
      | Some e => ret ("", Some (ErrListInterfaces e))
      | None => findInterface interfaces targetIP ip
      end
  end.

Definition disableTXOffloadAndEnableMTUProbing (interfaceName : string)
  : M H (option error) :=
  r <- exec_Command "/usr/sbin/ethtool" ["--offload"; interfaceName; "tx"; "off"] ;;
  match snd r with
  | Some e => ret (Some (ErrOffload e))
  | None =>
      r <- exec_Command "/usr/sbin/sysctl" ["-w"; "net.ipv4.tcp_mtu_probing=1"] ;;
      match snd r with
      | Some e => ret (Some (ErrMTUProbing e))
      | None => ret None
      end
  end.

End Package.

End metastonehack.

(** ** Package [workloadcluster] *)

Module workloadcluster.
Import gostrings host k8s.
Open Scope host_scope.

(** Errors as package [github.com/pkg/errors] builds them. *)
Inductive error :=
| External (cause : goerror)
| New (message : string)
| Wrap (cause : error) (message : string).

Fixpoint Error (e : error) : string :=
  match e with
  | External c => c
  | New m => m
  | Wrap c m => m +:+ ": " +:+ Error c
  end.

(** [infrav1.KubevirtCluster], by the fields read; [Labels] is a Go map,
    [None] when nil. *)
Record KubevirtCluster := {
  kc_Namespace : string;
  Labels : option (gmap string string);
  Spec_ControlPlaneEndpoint_Host : string
}.

Record Cluster := { Cluster_Name : string }.

(** [context.MachineContext], by the two objects read. *)
Record MachineContext := {
  ctx_KubevirtCluster : KubevirtCluster;
  ctx_Cluster : Cluster
}.

(** Reading a Go map of strings: the zero value for a missing key. *)
Definition index (m : gmap string string) (k : string) : string :=
  match m !! k with Some v => v | None => "" end.

Section Package.
Context {H : Type} `{Host H}.

(** client-go and controller-runtime are not part of this repository: the
    REST configuration, the two kinds of client and their constructors are
    parameters. *)
Variables RestConfig Scheme WorkloadClient K8sClient : Type.
Variable RESTConfigFromKubeConfig : string -> RestConfig * option goerror.
Variable Client_Scheme : Client -> Scheme.
Variable client_New : RestConfig -> Scheme -> WorkloadClient * option goerror.
Variable k8sclient_NewForConfig : RestConfig -> K8sClient * option goerror.

(** [workloadCluster] embeds the client of the management cluster. *)
Record workloadCluster := { wc_Client : Client }.

Definition getKubeconfigForWorkloadCluster (w : workloadCluster)
  (ctx : MachineContext) : string * option error :=
  let kubeconfigSecretKey :=
    {| Namespace := kc_Namespace (ctx_KubevirtCluster ctx);
       Name := Cluster_Name (ctx_Cluster ctx) +:+ "-kubeconfig" |} in
  let '(kubeconfigSecret, err) := Get (wc_Client w) kubeconfigSecretKey in
  match err with
  | Some e =>
      ("", Some (Wrap (External e) "failed to fetch kubeconfig for workload cluster"))
  | None =>
      match Data kubeconfigSecret !! "value" with
      | None =>
          ("", Some (New "error retrieving kubeconfig data: secret value key is missing"))
      | Some value => (value, None)
      end
  end.

(** Lines 48-71 of [GenerateWorkloadClusterClient] and lines 96-120 of
    [GenerateWorkloadClusterK8sClient]; the two blocks differ in the
    function name [fn] they print, and in nothing else. *)
Definition routeViaManagerGW (fn : string) (ctx : MachineContext) : M H unit :=
  match Labels (ctx_KubevirtCluster ctx) with
  | None => ret tt
  | Some labels =>
      let msmngapisever := index labels "metastone/manager-gw" in
      let apiserverip := Spec_ControlPlaneEndpoint_Host (ctx_KubevirtCluster ctx) in
      if negb (String.eqb msmngapisever "") && negb (String.eqb apiserverip "")
      then
        let filename := "/metastone/" +:+ apiserverip in
        r <- os_Stat filename ;;
        let '(filefd, err) := r in
        match filefd, err with
        | Some _, None => ret tt
        | _, _ =>
            exec_Command "ip"
              ["route"; "add"; apiserverip +:+ "/32"; "via"; msmngapisever] ;;
            os_WriteFile filename msmngapisever ;;
            r <- exec_Command "/usr/sbin/ethtool" ["--offload"; "net1"; "tx"; "off"] ;;
            match snd r with
            | Some e => fmt_Printf (fn +:+ " ethtool err=" +:+ e)
            | None => ret tt
            end ;;
            r <- exec_Command "/usr/sbin/sysctl" ["-w"; "net.ipv4.tcp_mtu_probing=1"] ;;
            match snd r with
            | Some e => fmt_Printf (fn +:+ " sysctl err=" +:+ e)
            | None => ret tt
            end
        end
      else ret tt
  end.

Definition GenerateWorkloadClusterClient (w : workloadCluster)
  (ctx : MachineContext) : M H (option WorkloadClient * option error) :=
  let '(kubeConfig, err) := getKubeconfigForWorkloadCluster w ctx in
  match err with
  | Some e => ret (None, Some (Wrap e "failed to get kubeconfig for workload cluster"))
  | None =>
      match RESTConfigFromKubeConfig kubeConfig with
      | (_, Some e) => ret (None, Some (Wrap (External e) "failed to create REST config"))
      | (restConfig, None) =>
          routeViaManagerGW "GenerateWorkloadClusterClient" ctx ;;
          match client_New restConfig (Client_Scheme (wc_Client w)) with
          | (_, Some e) =>
              ret (None, Some (Wrap (External e) "failed to create workload cluster client"))
          | (workloadClusterClient, None) => ret (Some workloadClusterClient, None)
          end
      end
  end.

Definition GenerateWorkloadClusterK8sClient (w : workloadCluster)
  (ctx : MachineContext) : M H (option K8sClient * option error) :=
  let '(kubeConfig, err) := getKubeconfigForWorkloadCluster w ctx in
  match err with
  | Some e => ret (None, Some (Wrap e "failed to get kubeconfig for workload cluster"))
  | None =>
      match RESTConfigFromKubeConfig kubeConfig with
      | (_, Some e) => ret (None, Some (Wrap (External e) "failed to create REST config"))
      | (restConfig, None) =>
          routeViaManagerGW "GenerateWorkloadClusterK8sClient" ctx ;;
          match k8sclient_NewForConfig restConfig with
          | (_, Some e) =>
              ret (None, Some (Wrap (External e) "failed to create workload cluster client"))
          | (workloadClusterClient, None) => ret (Some workloadClusterClient, None)
          end
      end
  end.

(** The marker file of a control-plane endpoint host. *)
Definition markerFile (apiserverip : string) : string := "/metastone/" +:+ apiserverip.

(** One of the four conditions of the reconfiguration does not hold. *)
Definition gateClosed (ctx : MachineContext) (h : H) : Prop :=
  Labels (ctx_KubevirtCluster ctx) = None
  \/ (exists labels, Labels (ctx_KubevirtCluster ctx) = Some labels
                     /\ index labels "metastone/manager-gw" = "")
  \/ Spec_ControlPlaneEndpoint_Host (ctx_KubevirtCluster ctx) = ""
  \/ (exists fi, Stat (markerFile (Spec_ControlPlaneEndpoint_Host (ctx_KubevirtCluster ctx))) h
                 = (Some fi, None)).

(** The client built from the fetched kubeconfig alone: the secret, the
    REST configuration, the constructor.  The host takes no part. *)
Definition clientFromKubeconfig (w : workloadCluster) (ctx : MachineContext)
  : option WorkloadClient * option error :=
  let '(kubeConfig, err) := getKubeconfigForWorkloadCluster w ctx in
  match err with
  | Some e => (None, Some (Wrap e "failed to get kubeconfig for workload cluster"))
  | None =>
      match RESTConfigFromKubeConfig kubeConfig with
      | (_, Some e) => (None, Some (Wrap (External e) "failed to create REST config"))
      | (restConfig, None) =>
          match client_New restConfig (Client_Scheme (wc_Client w)) with
          | (_, Some e) =>
              (None, Some (Wrap (External e) "failed to create workload cluster client"))
          | (c, None) => (Some c, None)
          end
      end
  end.

Definition k8sClientFromKubeconfig (w : workloadCluster) (ctx : MachineContext)
  : option K8sClient * option error :=
  let '(kubeConfig, err) := getKubeconfigForWorkloadCluster w ctx in
  match err with
  | Some e => (None, Some (Wrap e "failed to get kubeconfig for workload cluster"))
  | None =>
      match RESTConfigFromKubeConfig kubeConfig with
      | (_, Some e) => (None, Some (Wrap (External e) "failed to create REST config"))
      | (restConfig, None) =>
          match k8sclient_NewForConfig restConfig with
          | (_, Some e) =>
              (None, Some (Wrap (External e) "failed to create workload cluster client"))
          | (c, None) => (Some c, None)
          end
      end
  end.

End Package.

End workloadcluster.

(** ** A simulated host

    A host in the small, for running the code on concrete inputs: a routing
    table, a file system, network links with their addresses, and the
    programs that are out of order. *)

Module sim.
Import gostrings host.

Record Route := { dst : string; via : string; dev : string }.

Record SimHost := {
  routes : list Route;
  files : gmap string string;
  links : list (Link * list Addr);
  broken : list string
}.

Definition nl : string := String (ascii_of_nat 10) EmptyString.

(** A line of [ip route show]. *)
Definition showRoute (r : Route) : string :=
  dst r +:+ " via " +:+ via r +:+ " dev " +:+ dev r +:+ " " +:+ nl.

Fixpoint showRoutes (rs : list Route) : string :=
  match rs with
  | [] => ""
  | r :: rs' => showRoute r +:+ showRoutes rs'
  end.

Definition hasRoute (d : string) (rs : list Route) : bool :=
  existsb (fun r => String.eqb (dst r) d) rs.

Definition isBroken (name : string) (h : SimHost) : bool :=
  existsb (String.eqb name) (broken h).

Definition withRoutes (rs : list Route) (h : SimHost) : SimHost :=
  {| routes := rs; files := files h; links := links h; broken := broken h |}.

Definition withFiles (fs : gmap string string) (h : SimHost) : SimHost :=
  {| routes := routes h; files := fs; links := links h; broken := broken h |}.

Definition simCombinedOutput (name : string) (args : list string) (h : SimHost)
  : (string * option goerror) * SimHost :=
  if isBroken name h then (("", Some "exit status 1"), h)
  else
    match name, args with
    | "ip", ["route"; "show"] => ((showRoutes (routes h), None), h)
    | "ip", ["route"; "add"; d; "via"; gw] =>
        if hasRoute d (routes h)
        then (("RTNETLINK answers: File exists" +:+ nl, Some "exit status 2"), h)
        else (("", None),
              withRoutes (routes h ++ [{| dst := d; via := gw; dev := "net1" |}]) h)
    | "/usr/sbin/ethtool", ["--offload"; _; "tx"; "off"] => (("", None), h)
    | "/usr/sbin/sysctl", ["-w"; "net.ipv4.tcp_mtu_probing=1"] =>
        (("net.ipv4.tcp_mtu_probing = 1" +:+ nl, None), h)
    | _, _ => (("", Some "executable file not found in $PATH"), h)
    end.

Definition simStat (filename : string) (h : SimHost)
  : option FileInfo * option goerror :=
  match files h !! filename with
  | Some data =>
      (Some {| fi_name := filename; fi_size := String.length data |}, None)
  | None => (None, Some ("stat " +:+ filename +:+ ": no such file or directory"))
  end.

Definition simWriteFile (filename data : string) (h : SimHost)
  : option goerror * SimHost :=
  (None, withFiles (<[filename := data]> (files h)) h).

Definition simAddrList (l : Link) (h : SimHost) : list Addr * option goerror :=
  match List.find (fun p => Nat.eqb (Attrs_Index (fst p)) (Attrs_Index l)) (links h) with
  | Some p => (snd p, None)
  | None => ([], Some "no such device")
  end.

#[export] Instance simHost : Host SimHost := {
  CombinedOutput := simCombinedOutput;
  Stat := simStat;
  WriteFile := simWriteFile;
  LinkList := fun h => (map fst (links h), None);
  AddrList := simAddrList
}.

Definition emptyHost : SimHost :=
  {| routes := []; files := ∅; links := []; broken := [] |}.

End sim.

(** ** The gateway as the specification words it *)

Module spec.
Import gostrings.

Section Gateway.
Variable parseIPv6 : string -> option net.IP.
Variable ipv6String : net.IP -> string.

(** The network address of the CIDR [c] with its last octet set to 2, as a
    dotted quad; [None] when [c] is no IPv4 CIDR. *)
Definition networkGateway (c : string) : option string :=
  match net.ParseCIDR parseIPv6 c with
  | Some (_, network) =>
      match net.To4 (net.IPNet_IP network) with
      | Some addr => Some (net.IP_String ipv6String (<[3 := 2%N]> addr))
      | None => None
      end
  | None => None
  end.

End Gateway.
End spec.

Import gostrings host k8s sim.

(** Stand-ins for the IPv6 side of package [net], for running the code on
    IPv4 inputs: nothing is accepted as IPv6, except by [onlyDocV6] the
    documentation prefix. *)
Definition noIPv6 : string -> option net.IP := fun _ => None.
Definition noIPv6String : net.IP -> string := fun _ => "?".

Definition onlyDocV6 (s : string) : option net.IP :=
  if String.eqb s "2001:db8::"
  then Some [32; 1; 13; 184; 0; 0; 0; 0; 0; 0; 0; 0; 0; 0; 0; 0]%N
  else None.

(** ** Objects to run the code on *)

Module demo.
Import workloadcluster.

(** Stand-ins for client-go: a REST configuration is the kubeconfig text,
    a client is the REST configuration it was built from. *)
Definition restConfigOf (kubeConfig : string) : string * option goerror :=
  (kubeConfig, None).
Definition schemeOf (c : Client) : unit := tt.
Definition newClient (restConfig : string) (scheme : unit) : string * option goerror :=
  (restConfig, None).
Definition newK8sClient (restConfig : string) : string * option goerror :=
  (restConfig, None).

(** A management cluster with one tenant API server for the default
    tenant and a kubeconfig secret. *)
Definition management : Client :=
  {| List := fun _ _ =>
       ([{| Spec_Tenant := "ten-mng"; Spec_Subnet := "192.168.10.0/24" |}], None);
     Get := fun _ => ({| Data := {["value" := "apiVersion: v1"]} |}, None) |}.

(** A management cluster that lists no tenant API server. *)
Definition noTenant : Client :=
  {| List := fun _ _ => ([], None);
     Get := fun _ => ({| Data := ∅ |}, None) |}.

Definition wc : workloadCluster := {| wc_Client := management |}.

(** A cluster labelled with its manager gateway. *)
Definition labelled : MachineContext :=
  {| ctx_KubevirtCluster :=
       {| kc_Namespace := "tenant-a";
          Labels := Some {["metastone/manager-gw" := "192.168.10.2"]};
          Spec_ControlPlaneEndpoint_Host := "203.0.113.5" |};
     ctx_Cluster := {| Cluster_Name := "workload" |} |}.

(** A cluster without labels. *)
Definition unlabelled : MachineContext :=
  {| ctx_KubevirtCluster :=
       {| kc_Namespace := "tenant-a";
          Labels := None;
          Spec_ControlPlaneEndpoint_Host := "203.0.113.5" |};
     ctx_Cluster := {| Cluster_Name := "workload" |} |}.

(** A host that already routes 203.0.113.5/32 through another gateway. *)
Definition routedElsewhere : SimHost :=
  {| routes := [{| dst := "203.0.113.5/32"; via := "10.0.0.9"; dev := "net1" |}];
     files := ∅; links := []; broken := [] |}.

(** A host whose ethtool is out of order. *)
Definition noEthtool : SimHost :=
  {| routes := []; files := ∅; links := []; broken := ["/usr/sbin/ethtool"] |}.

(** A host with two links; the second has the address 192.168.10.7. *)
Definition twoLinks : SimHost :=
  {| routes := []; files := ∅;
     links :=
       [({| Attrs_Name := "lo"; Attrs_Index := 1 |},
         [{| Addr_IP := [127; 0; 0; 1]%N |}]);
        ({| Attrs_Name := "net1"; Attrs_Index := 2 |},
         [{| Addr_IP := [192; 168; 10; 7]%N |}])];
     broken := [] |}.

End demo.

(** ** Texts of octets and membership in a network *)

Module chars.

(** Every character of [s] satisfies [P]. *)
Fixpoint allChars (P : ascii -> bool) (s : string) : bool :=
  match s with
  | EmptyString => true
  | String c s' => P c && allChars P s'
  end.

(** [s] begins with a character that satisfies [P]. *)
Definition startsWith (P : ascii -> bool) (s : string) : bool :=
  match s with
  | String c _ => P c
  | EmptyString => false
  end.

(** The values of a byte. *)
Definition octets : list N := map N.of_nat (seq 0 256).

(** The decimal text of [a] is made of digits, is not empty, has no
    leading zero, and [dtoi] reads [a] back from the whole of it. *)
Definition octetText_ok (a : N) : bool :=
  let s := itoa a in
  allChars net.isDigit s
  && negb (Nat.eqb (String.length s) 0)
  && negb (Nat.ltb 1 (String.length s) && net.firstIs s "0")
  && let '(n, i, ok) := net.dtoi s in
     N.eqb n a && Nat.eqb i (String.length s) && ok.

End chars.

Module subnet.

(** [n.Contains(ip)] of [net.IPNet], for a network whose address and mask
    have the same length. *)
Definition Contains (n : net.IPNet) (ip : net.IP) : bool :=
  let ip := match net.To4 ip with Some x => x | None => ip end in
  Nat.eqb (length ip) (length (net.IPNet_IP n))
  && net.bytesEqual (net.andBytes (net.IPNet_IP n) (net.IPNet_Mask n))
                    (net.andBytes ip (net.IPNet_Mask n)).

End subnet.

(** ** More hosts to run the code on *)

Module scenes.

(** A host that routes 203.0.113.5/32 via 10.0.0.9 and has 192.168.10.2
    as its default gateway. *)
Definition gatewayOfAnotherRoute : SimHost :=
  {| routes := [{| dst := "203.0.113.5/32"; via := "10.0.0.9"; dev := "net1" |};
                {| dst := "default"; via := "192.168.10.2"; dev := "net0" |}];
     files := ∅; links := []; broken := [] |}.

(** A host whose [ip] is out of order. *)
Definition noIp : SimHost :=
  {| routes := []; files := ∅; links := []; broken := ["ip"] |}.

(** A host given by its links alone, each with the answer of its address
    listing, which may be an error; it runs no command and has no file. *)
Record LinkTable := { entries : list (Link * (list Addr * option goerror)) }.

Definition tableAddrList (l : Link) (t : LinkTable) : list Addr * option goerror :=
  match List.find (fun p => Nat.eqb (Attrs_Index (fst p)) (Attrs_Index l)) (entries t) with
  | Some p => snd p
  | None => ([], Some "no such device")
  end.

#[export] Instance linkTableHost : Host LinkTable := {
  CombinedOutput := fun _ _ t => (("", Some "executable file not found in $PATH"), t);
  Stat := fun f _ => (None, Some ("stat " +:+ f +:+ ": no such file or directory"));
  WriteFile := fun f _ t => (Some ("open " +:+ f +:+ ": read-only file system"), t);
  LinkList := fun t => (map fst (entries t), None);
  AddrList := tableAddrList
}.

(** The address listing of the first link fails; the second link has the
    address 192.168.10.7. *)
Definition firstLinkUnreadable : LinkTable :=
  {| entries :=
       [({| Attrs_Name := "net0"; Attrs_Index := 1 |}, ([], Some "operation not permitted"));
        ({| Attrs_Name := "net1"; Attrs_Index := 2 |},
         ([{| Addr_IP := [192; 168; 10; 7]%N |}], None))] |}.

(** A management cluster whose kubeconfig secret has no "value" key. *)
Definition secretWithoutValue : Client :=
  {| List := fun _ _ => ([], None);
     Get := fun _ => ({| Data := {["token" := "abc"]} |}, None) |}.

(** A management cluster that cannot be reached. *)
Definition unreachable : Client :=
  {| List := fun _ _ => ([], Some "connection refused");
     Get := fun _ => ({| Data := ∅ |}, Some "connection refused") |}.

(** A client constructor that always fails. *)
Definition failingNewClient (restConfig : string) (scheme : unit)
  : string * option goerror := ("", Some "no kind is registered").

End scenes.

(** ** A host that lists host routes the short way *)

Module plainhost.

(** A host given by its routing table.  Its [ip route show] writes the
    destination of a host route without the /32 it was added with, and
    its [ip route add] refuses a destination the table has already. *)
Record PlainHost := { table : list Route }.

(** The destination as the listing writes it. *)
Definition listedDst (d : string) : string :=
  let n := String.length d - 3 in
  if String.eqb (drop n d) "/32" then take n d else d.

Definition listRoute (r : Route) : string :=
  listedDst (dst r) +:+ " via " +:+ via r +:+ " dev " +:+ dev r +:+ " " +:+ sim.nl.

Fixpoint listRoutes (rs : list Route) : string :=
  match rs with
  | [] => ""
  | r :: rs' => listRoute r +:+ listRoutes rs'
  end.

Definition plainCombinedOutput (name : string) (args : list string) (h : PlainHost)
  : (string * option goerror) * PlainHost :=
  match name, args with
  | "ip", ["route"; "show"] => ((listRoutes (table h), None), h)
  | "ip", ["route"; "add"; d; "via"; gw] =>
      if hasRoute d (table h)
      then (("RTNETLINK answers: File exists" +:+ sim.nl, Some "exit status 2"), h)
      else (("", None), {| table := table h ++ [{| dst := d; via := gw; dev := "net1" |}] |})
  | _, _ => (("", Some "executable file not found in $PATH"), h)
  end.

#[export] Instance plainHost : Host PlainHost := {
  CombinedOutput := plainCombinedOutput;
  Stat := fun f _ => (None, Some ("stat " +:+ f +:+ ": no such file or directory"));
  WriteFile := fun f _ h => (Some ("open " +:+ f +:+ ": read-only file system"), h);
  LinkList := fun _ => ([], None);
  AddrList := fun _ _ => ([], Some "no such device")
}.


End plainhost.

(** * Properties *)

(** ** Gateway resolver *)

Section GatewayProperties.
Variable parseIPv6 : string -> option net.IP.
Variable ipv6String : net.IP -> string.

#[local] Abbreviation managerGWOfSubnet :=
  (metastonehack.managerGWOfSubnet parseIPv6 ipv6String).
#[local] Abbreviation getManagerGWFromDefaultTenant :=
  (metastonehack.getManagerGWFromDefaultTenant parseIPv6 ipv6String).
#[local] Abbreviation networkGateway := (spec.networkGateway parseIPv6 ipv6String).

Lemma To4_length ip a : net.To4 ip = Some a -> length a = 4.
Proof.
  unfold net.To4. intros Hto4.
  do 17 (try (destruct ip as [|? ip]; try discriminate));
    try (injection Hto4 as <-; reflexivity).
  destruct (_ && _); [injection Hto4 as <-; reflexivity | discriminate].
Qed.

(** What the resolver returns on a CIDR it accepts: the address written in
    the CIDR, last octet replaced by 2. *)
Lemma managerGWOfSubnet_ok s ip network a :
  net.ParseCIDR parseIPv6 s = Some (ip, network) ->
  net.To4 ip = Some a ->
  managerGWOfSubnet s = (net.IP_String ipv6String (<[3 := 2%N]> a), None).
Proof.
  intros Hparse Hto4. unfold metastonehack.managerGWOfSubnet.
  rewrite Hparse, Hto4. reflexivity.
Qed.

(** The resolver agrees with the specification's gateway on every CIDR
    whose address and network address have the same first three octets,
    such as a CIDR written with its network address. *)
Lemma managerGWOfSubnet_network s ip network a a' :
  net.ParseCIDR parseIPv6 s = Some (ip, network) ->
  net.To4 ip = Some a ->
  net.To4 (net.IPNet_IP network) = Some a' ->
  firstn 3 a = firstn 3 a' ->
  exists gw, managerGWOfSubnet s = (gw, None) /\ networkGateway s = Some gw.
Proof.
  intros Hparse Ha Ha' Hpre.
  exists (net.IP_String ipv6String (<[3 := 2%N]> a)). split.
  - eapply managerGWOfSubnet_ok; eassumption.
  - unfold spec.networkGateway. rewrite Hparse, Ha'.
    pose proof (To4_length _ _ Ha) as La. pose proof (To4_length _ _ Ha') as La'.
    do 5 (destruct a as [|? a]; try discriminate).
    do 5 (destruct a' as [|? a']; try discriminate).
    simpl in Hpre. injection Hpre as -> -> ->. reflexivity.
Qed.

(** C1, at the CIDR 10.4.5.7/16: the resolver returns 10.4.5.2, the
    address written in the CIDR with last octet 2, while the network
    address of that CIDR with last octet 2 is 10.4.0.2. *)
Theorem managerGWOfSubnet_keeps_host_octets :
  managerGWOfSubnet "10.4.5.7/16" = ("10.4.5.2", None)
  /\ networkGateway "10.4.5.7/16" = Some "10.4.0.2"
  /\ managerGWOfSubnet "10.4.0.0/16" = ("10.4.0.2", None).
Proof. repeat split; reflexivity. Qed.

(** C8: on a CIDR string that does not parse, or whose parsed address is
    not IPv4, the resolver returns no gateway and an InvalidSubnet error,
    and so does [getManagerGWFromDefaultTenant] when that string is the
    subnet of the one tenant API server listed. *)
Theorem managerGW_invalid_subnet (s : string) :
  net.ParseCIDR parseIPv6 s = None
  \/ (exists ip network,
        net.ParseCIDR parseIPv6 s = Some (ip, network) /\ net.To4 ip = None) ->
  (exists e, managerGWOfSubnet s = ("", Some e)
             /\ metastonehack.kind e = metastonehack.InvalidSubnet)
  /\ forall runtimeClient item,
       List runtimeClient "ten-mng" ("spec.tenant", "ten-mng") = ([item], None) ->
       Spec_Subnet item = s -> s <> "" ->
       exists e, getManagerGWFromDefaultTenant runtimeClient = ("", Some e)
                 /\ metastonehack.kind e = metastonehack.InvalidSubnet.
Proof.
  intros Hbad.
  assert (Hblock : exists e, managerGWOfSubnet s = ("", Some e)
                    /\ metastonehack.kind e = metastonehack.InvalidSubnet).
  { unfold metastonehack.managerGWOfSubnet.
    destruct Hbad as [Hnone | (ip & network & Hsome & Hto4)].
    - rewrite Hnone. eexists; split; reflexivity.
    - rewrite Hsome, Hto4. eexists; split; reflexivity. }
  split; [exact Hblock|].
  intros runtimeClient item Hlist Hsub Hne.
  unfold metastonehack.getManagerGWFromDefaultTenant.
  change metastonehack.defaultTenantsNamespace with "ten-mng".
  change metastonehack.defaultTenantName with "ten-mng".
  rewrite Hlist, Hsub.
  destruct (String.eqb_spec s ""); [contradiction | exact Hblock].
Qed.

(** C7: when the listing succeeds with zero or with several tenant API
    servers, [getManagerGWFromDefaultTenant] fails with a
    ConfigurationError, and so it does with exactly one whose subnet is
    empty. *)
Theorem tenant_lookup_configuration_error runtimeClient items :
  List runtimeClient "ten-mng" ("spec.tenant", "ten-mng") = (items, None) ->
  length items <> 1 \/ (exists item, items = [item] /\ Spec_Subnet item = "") ->
  exists e, getManagerGWFromDefaultTenant runtimeClient = ("", Some e)
            /\ metastonehack.kind e = metastonehack.ConfigurationError.
Proof.
  intros Hlist Hcase.
  unfold metastonehack.getManagerGWFromDefaultTenant.
  change metastonehack.defaultTenantsNamespace with "ten-mng".
  change metastonehack.defaultTenantName with "ten-mng".
  rewrite Hlist.
  destruct Hcase as [Hlen | (item & -> & Hempty)].
  - destruct items as [|item [|item' items]]; simpl in Hlen;
      [ | congruence | ]; eexists; split; reflexivity.
  - rewrite Hempty. eexists; split; reflexivity.
Qed.

End GatewayProperties.

(** ** Route reconciler *)

Section RouteProperties.
Context {H : Type} `{Host H}.

Ltac run_route Hshow :=
  unfold run, metastonehack.checkAndAddRoute, bind, exec_Command, fmt_Printf, emit, ret;
  cbn [hostOf trace app]; rewrite Hshow; cbn [hostOf trace app fst snd].

(** When [ip route show] itself fails, nothing else is run. *)
Lemma checkAndAddRoute_show_fails (h h1 : H) dst gw out e :
  CombinedOutput "ip" ["route"; "show"] h = ((out, Some e), h1) ->
  run (metastonehack.checkAndAddRoute dst gw) h
  = (Some (metastonehack.ErrCheckRoutes e),
     {| hostOf := h1; trace := [ipRouteShow] |}).
Proof. intros Hshow. run_route Hshow. reflexivity. Qed.

(** C2: when the routing table shows destination/32 and the gateway
    string appears nowhere in it (the route goes via another gateway),
    [checkAndAddRoute] fails with RouteConflict, the only command it runs
    is the query, it writes nothing, and the host is as the query left it. *)
Theorem checkAndAddRoute_conflict (h h1 : H) dst gw out :
  CombinedOutput "ip" ["route"; "show"] h = ((out, None), h1) ->
  Contains out (dst +:+ "/32") = true ->
  Contains out gw = false ->
  exists w,
    run (metastonehack.checkAndAddRoute dst gw) h
    = (Some (metastonehack.ErrRouteConflict (dst +:+ "/32") gw), w)
    /\ metastonehack.kind (metastonehack.ErrRouteConflict (dst +:+ "/32") gw)
       = metastonehack.RouteConflict
    /\ hostOf w = h1
    /\ commands (trace w) = [ipRouteShow]
    /\ occurrences (ipRouteAdd (dst +:+ "/32") gw) (trace w) = 0
    /\ writes (trace w) = [].
Proof.
  intros Hshow Hdst Hgw. eexists. split.
  - run_route Hshow. rewrite Hdst, Hgw. cbn [andb negb]. reflexivity.
  - cbn. repeat split; reflexivity.
Qed.

(** The third case of [checkAndAddRoute]: the table does not show
    destination/32. *)
Lemma checkAndAddRoute_absent (h h1 h2 : H) dst gw out out' err :
  CombinedOutput "ip" ["route"; "show"] h = ((out, None), h1) ->
  Contains out (dst +:+ "/32") = false ->
  CombinedOutput "ip" ["route"; "add"; dst +:+ "/32"; "via"; gw] h1
  = ((out', err), h2) ->
  run (metastonehack.checkAndAddRoute dst gw) h
  = (match err with
     | Some e => Some (metastonehack.ErrRouteAdd (dst +:+ "/32") gw e)
     | None => None
     end,
     {| hostOf := h2;
        trace :=
          [ipRouteShow;
           Print ("Routing rules: " +:+ out +:+ "." +:+ metastonehack.nl);
           ipRouteAdd (dst +:+ "/32") gw]
          ++ match err with
             | Some _ => []
             | None =>
                 [Print ("Route " +:+ (dst +:+ "/32") +:+ " added successfully via "
                         +:+ gw +:+ "." +:+ metastonehack.nl)]
             end |}).
Proof.
  intros Hshow Hdst Hadd. run_route Hshow. rewrite Hdst.
  cbn [andb hostOf trace app]. rewrite Hadd. cbn [snd hostOf trace app].
  destruct err; reflexivity.
Qed.

(** The first case of [checkAndAddRoute]: the table shows destination/32
    and the gateway string. *)
Lemma checkAndAddRoute_present (h h1 : H) dst gw out :
  CombinedOutput "ip" ["route"; "show"] h = ((out, None), h1) ->
  Contains out (dst +:+ "/32") = true ->
  Contains out gw = true ->
  run (metastonehack.checkAndAddRoute dst gw) h
  = (None,
     {| hostOf := h1;
        trace :=
          [ipRouteShow;
           Print ("Routing rules: " +:+ out +:+ "." +:+ metastonehack.nl);
           Print ("Route " +:+ (dst +:+ "/32") +:+ " already exists via manager gateway "
                  +:+ gw +:+ "." +:+ metastonehack.nl)] |}).
Proof.
  intros Hshow Hdst Hgw. run_route Hshow. rewrite Hdst, Hgw. reflexivity.
Qed.

Lemma occurrences_app e t1 t2 :
  occurrences e (t1 ++ t2) = occurrences e t1 + occurrences e t2.
Proof. unfold occurrences. rewrite List.filter_app, List.length_app. reflexivity. Qed.

(** C9: when the routing table shows neither destination/32 nor the
    gateway, [checkAndAddRoute] runs the add command for destination/32
    via the gateway exactly once, returns nil when that command succeeds
    and a RouteAddFailed error when it fails. *)
Theorem checkAndAddRoute_adds (h h1 h2 : H) dst gw out out' err :
  CombinedOutput "ip" ["route"; "show"] h = ((out, None), h1) ->
  Contains out (dst +:+ "/32") = false ->
  Contains out gw = false ->
  CombinedOutput "ip" ["route"; "add"; dst +:+ "/32"; "via"; gw] h1
  = ((out', err), h2) ->
  exists r w,
    run (metastonehack.checkAndAddRoute dst gw) h = (r, w)
    /\ commands (trace w) = [ipRouteShow; ipRouteAdd (dst +:+ "/32") gw]
    /\ occurrences (ipRouteAdd (dst +:+ "/32") gw) (trace w) = 1
    /\ hostOf w = h2
    /\ (err = None -> r = None)
    /\ (forall e, err = Some e ->
          r = Some (metastonehack.ErrRouteAdd (dst +:+ "/32") gw e)
          /\ metastonehack.kind (metastonehack.ErrRouteAdd (dst +:+ "/32") gw e)
             = metastonehack.RouteAddFailed).
Proof.
  intros Hshow Hdst _ Hadd. do 2 eexists. split.
  - eapply checkAndAddRoute_absent; eassumption.
  - cbn [trace hostOf]. repeat split.
    + destruct err; reflexivity.
    + unfold occurrences, ipRouteAdd, ipRouteShow.
      destruct err; cbn [app List.filter];
        repeat case_bool_decide; try discriminate; try congruence; reflexivity.
    + intros ->. reflexivity.
    + subst err. reflexivity.
Qed.


End RouteProperties.

(** ** Substrings, and the route reconciler on the simulated host *)

Section Substrings.

Lemma append_cons x (a b : string) : String x a +:+ b = String x (a +:+ b).
Proof. reflexivity. Qed.

Lemma append_assoc (a b c : string) : (a +:+ b) +:+ c = a +:+ (b +:+ c).
Proof.
  induction a as [|x a IH]; [reflexivity|].
  rewrite !append_cons, IH. reflexivity.
Qed.

Lemma HasPrefix_append p s : HasPrefix (p +:+ s) p = true.
Proof.
  induction p as [|x p IH]; [reflexivity|].
  rewrite append_cons. cbn [HasPrefix]. rewrite Ascii.eqb_refl. exact IH.
Qed.

Lemma HasPrefix_append_l s t p : HasPrefix s p = true -> HasPrefix (s +:+ t) p = true.
Proof.
  revert s. induction p as [|x p IH]; intros s Hpre; [reflexivity|].
  destruct s as [|y s]; [discriminate|].
  rewrite append_cons. cbn [HasPrefix] in *.
  apply andb_prop in Hpre as [-> Hpre]. rewrite (IH _ Hpre). reflexivity.
Qed.

Lemma Contains_unfold s p :
  Contains s p
  = HasPrefix s p || match s with EmptyString => false | String _ s' => Contains s' p end.
Proof. destruct s; reflexivity. Qed.

Lemma Contains_HasPrefix s p : HasPrefix s p = true -> Contains s p = true.
Proof. intros Hpre. rewrite Contains_unfold, Hpre. reflexivity. Qed.

Lemma Contains_append_r s t p : Contains t p = true -> Contains (s +:+ t) p = true.
Proof.
  intros Ht. induction s as [|x s IH]; [exact Ht|].
  rewrite append_cons, Contains_unfold, IH. apply orb_true_r.
Qed.

Lemma Contains_append_l s t p : Contains s p = true -> Contains (s +:+ t) p = true.
Proof.
  induction s as [|x s IH]; intros Hs.
  - rewrite Contains_unfold in Hs. rewrite orb_false_r in Hs.
    apply Contains_HasPrefix. apply (HasPrefix_append_l "" t p Hs).
  - rewrite Contains_unfold in Hs.
    apply orb_prop in Hs as [Hpre | Hrest].
    + apply Contains_HasPrefix, HasPrefix_append_l, Hpre.
    + rewrite append_cons, Contains_unfold, (IH Hrest). apply orb_true_r.
Qed.

Lemma showRoutes_app rs rs' : showRoutes (rs ++ rs') = showRoutes rs +:+ showRoutes rs'.
Proof.
  induction rs as [|r rs IH]; [reflexivity|].
  cbn [showRoutes app]. rewrite IH, append_assoc. reflexivity.
Qed.

(** A route of the table is shown with its destination and its gateway. *)
Lemma showRoute_Contains r :
  Contains (showRoute r) (dst r) = true /\ Contains (showRoute r) (via r) = true.
Proof.
  unfold showRoute. split.
  - apply Contains_HasPrefix, HasPrefix_append.
  - do 2 apply Contains_append_r. apply Contains_HasPrefix, HasPrefix_append.
Qed.

Lemma hasRoute_shown d rs : hasRoute d rs = true -> Contains (showRoutes rs) d = true.
Proof.
  induction rs as [|r rs IH]; [discriminate|].
  cbn [hasRoute existsb showRoutes]. intros Hhas.
  apply orb_prop in Hhas as [Hhere | Hthere].
  - apply String.eqb_eq in Hhere. subst d.
    apply Contains_append_l, showRoute_Contains.
  - apply Contains_append_r, IH, Hthere.
Qed.

Lemma added_route_shown rs d gw :
  Contains (showRoutes (rs ++ [{| dst := d; via := gw; dev := "net1" |}])) d = true
  /\ Contains (showRoutes (rs ++ [{| dst := d; via := gw; dev := "net1" |}])) gw = true.
Proof.
  rewrite showRoutes_app.
  destruct (showRoute_Contains {| dst := d; via := gw; dev := "net1" |}) as [Hd Hgw].
  split; apply Contains_append_r, Contains_append_l; assumption.
Qed.

(** On every simulated host whose [ip] works and whose table does not
    show destination/32, the first call adds the route and the second
    call, on the host the first one left, changes nothing. *)
Lemma simulated_route_add_idempotent (h : SimHost) dst gw :
  isBroken "ip" h = false ->
  Contains (showRoutes (routes h)) (dst +:+ "/32") = false ->
  let h' := withRoutes (routes h ++ [{| dst := dst +:+ "/32"; via := gw; dev := "net1" |}]) h in
  hostOf (snd (run (metastonehack.checkAndAddRoute dst gw) h)) = h'
  /\ fst (run (metastonehack.checkAndAddRoute dst gw) h) = None
  /\ hostOf (snd (run (metastonehack.checkAndAddRoute dst gw) h')) = h'
  /\ fst (run (metastonehack.checkAndAddRoute dst gw) h') = None
  /\ commands (trace (snd (run (metastonehack.checkAndAddRoute dst gw) h')))
     = [ipRouteShow].
Proof.
  intros Hip Hdst h'.
  assert (Hshow : forall x : SimHost, isBroken "ip" x = false ->
            CombinedOutput "ip" ["route"; "show"] x = ((showRoutes (routes x), None), x)).
  { intros x Hx. cbn. unfold simCombinedOutput. rewrite Hx. reflexivity. }
  assert (Hno : hasRoute (dst +:+ "/32") (routes h) = false).
  { destruct (hasRoute _ _) eqn:E; [|reflexivity].
    apply hasRoute_shown in E. congruence. }
  assert (Hadd : CombinedOutput "ip" ["route"; "add"; dst +:+ "/32"; "via"; gw] h
                 = (("", None), h')).
  { cbn. unfold simCombinedOutput. rewrite Hip, Hno. reflexivity. }
  rewrite (checkAndAddRoute_absent h h h' dst gw _ "" None (Hshow h Hip) Hdst Hadd).
  destruct (added_route_shown (routes h) (dst +:+ "/32") gw) as [Hd Hgw].
  rewrite (checkAndAddRoute_present h' h' dst gw _ (Hshow h' Hip) Hd Hgw).
  repeat split.
Qed.

(** The test is on substrings: asked for the gateway 10.0.0.1 on a table
    that routes the destination via 10.0.0.12, [checkAndAddRoute] finds
    the gateway string in the output and reports the route as present. *)
Example checkAndAddRoute_gateway_substring :
  fst (run (metastonehack.checkAndAddRoute "203.0.113.5" "10.0.0.1")
         {| routes := [{| dst := "203.0.113.5/32"; via := "10.0.0.12"; dev := "net1" |}];
            files := ∅; links := []; broken := [] |})
  = None.
Proof. reflexivity. Qed.

End Substrings.

(** ** Offload/MTU tuner *)

Section TunerProperties.
Context {H : Type} `{Host H}.

(** C4, as the code has it: the two steps fail with errors of different
    kinds; when the ethtool step fails the function returns its error at
    once and the sysctl step is not run; the sysctl step is run when the
    ethtool step succeeded, and only then. *)
Theorem disableTXOffload_stops_at_first_failure (h : H) (iface : string) :
  (forall out e h1,
      CombinedOutput "/usr/sbin/ethtool" ["--offload"; iface; "tx"; "off"] h
      = ((out, Some e), h1) ->
      run (metastonehack.disableTXOffloadAndEnableMTUProbing iface) h
      = (Some (metastonehack.ErrOffload e),
         {| hostOf := h1; trace := [ethtoolOffload iface] |})
      /\ occurrences sysctlProbing [ethtoolOffload iface] = 0)
  /\ (forall out h1 out' err h2,
      CombinedOutput "/usr/sbin/ethtool" ["--offload"; iface; "tx"; "off"] h
      = ((out, None), h1) ->
      CombinedOutput "/usr/sbin/sysctl" ["-w"; "net.ipv4.tcp_mtu_probing=1"] h1
      = ((out', err), h2) ->
      run (metastonehack.disableTXOffloadAndEnableMTUProbing iface) h
      = (match err with
         | Some e => Some (metastonehack.ErrMTUProbing e)
         | None => None
         end,
         {| hostOf := h2; trace := [ethtoolOffload iface; sysctlProbing] |}))
  /\ (forall e e',
      metastonehack.kind (metastonehack.ErrOffload e)
      = metastonehack.OffloadDisableFailed
      /\ metastonehack.kind (metastonehack.ErrMTUProbing e')
         = metastonehack.MTUProbingEnableFailed
      /\ metastonehack.ErrOffload e <> metastonehack.ErrMTUProbing e').
Proof.
  unfold run, metastonehack.disableTXOffloadAndEnableMTUProbing, bind, exec_Command, ret.
  cbn [hostOf trace app]. split; [|split].
  - intros out e h1 Hethtool. rewrite Hethtool. split; reflexivity.
  - intros out h1 out' err h2 Hethtool Hsysctl. rewrite Hethtool.
    cbn [snd hostOf trace app]. rewrite Hsysctl. destruct err; reflexivity.
  - intros e e'. repeat split. discriminate.
Qed.

End TunerProperties.

(** ** Interface locator *)

Section LocatorProperties.
Variable parseIPv6 : string -> option net.IP.
Context {H : Type} `{Host H}.

Lemma find_ext {A} (f g : A -> bool) (l : list A) :
  (forall a, f a = g a) -> List.find f l = List.find g l.
Proof.
  intros Hfg. induction l as [|a l IH]; [reflexivity|].
  cbn. rewrite Hfg, IH. reflexivity.
Qed.

(** The inner loop is a membership test. *)
Lemma ownsIP_existsb addrs targetIP :
  metastonehack.ownsIP addrs targetIP
  = existsb (fun addr => net.Equal (Addr_IP addr) targetIP) addrs.
Proof.
  induction addrs as [|addr addrs IH]; [reflexivity|].
  cbn. rewrite IH. destruct (net.Equal _ _); reflexivity.
Qed.

(** The outer loop only reads the host. *)
Lemma findInterface_reads_only interfaces targetIP ip (w : World H) :
  snd (metastonehack.findInterface interfaces targetIP ip w) = w.
Proof.
  induction interfaces as [|iface rest IH]; [reflexivity|].
  cbn [metastonehack.findInterface]. unfold bind, netlink_AddrList, ret.
  destruct (AddrList iface (hostOf w)) as [addrs [e|]]; [reflexivity|].
  destruct (metastonehack.ownsIP addrs targetIP); [reflexivity | apply IH].
Qed.

(** When every address listing succeeds, the outer loop returns the first
    link that owns the address. *)
Lemma findInterface_first interfaces targetIP ip (w : World H) :
  Forall (fun l => snd (AddrList l (hostOf w)) = None) interfaces ->
  fst (metastonehack.findInterface interfaces targetIP ip w)
  = match List.find (fun l => metastonehack.ownsIP (fst (AddrList l (hostOf w))) targetIP)
            interfaces with
    | Some l => (Attrs_Name l, None)
    | None => ("", Some (metastonehack.ErrNoInterface ip))
    end.
Proof.
  induction 1 as [|iface rest Hok _ IH]; [reflexivity|].
  cbn [metastonehack.findInterface List.find]. unfold bind, netlink_AddrList, ret.
  destruct (AddrList iface (hostOf w)) as [addrs err]. cbn [fst snd] in *. subst err.
  destruct (metastonehack.ownsIP addrs targetIP); [reflexivity | apply IH].
Qed.

(** An address listing that fails ends the search with its error. *)
Lemma findInterface_listing_fails iface rest targetIP ip (w : World H) addrs e :
  AddrList iface (hostOf w) = (addrs, Some e) ->
  fst (metastonehack.findInterface (iface :: rest) targetIP ip w)
  = ("", Some (metastonehack.ErrListAddrs (Attrs_Name iface) e)).
Proof.
  intros Hlist. cbn [metastonehack.findInterface].
  unfold bind, netlink_AddrList, ret. rewrite Hlist. reflexivity.
Qed.

(** A link listing that fails is reported as such. *)
Lemma getInterfaceNameByIP_links_fail (h : H) ip targetIP interfaces e :
  net.ParseIP parseIPv6 ip = Some targetIP ->
  LinkList h = (interfaces, Some e) ->
  run (metastonehack.getInterfaceNameByIP parseIPv6 ip) h
  = (("", Some (metastonehack.ErrListInterfaces e)), {| hostOf := h; trace := [] |}).
Proof.
  intros Hparse Hlinks. unfold run, metastonehack.getInterfaceNameByIP.
  rewrite Hparse. unfold bind, netlink_LinkList. cbn [hostOf].
  rewrite Hlinks. reflexivity.
Qed.

(** C6: [getInterfaceNameByIP] fails with InvalidIP on a string that does
    not parse as an IP address.  On one that parses, when the host lists
    its links and the addresses of each of them, it returns the name of
    the first link one of whose addresses equals the parsed address, and
    fails with InterfaceNotFound when no link has such an address.  It
    runs no command and writes nothing. *)
Theorem getInterfaceNameByIP_first_owner (h : H) (ip : string) :
  (net.ParseIP parseIPv6 ip = None ->
   run (metastonehack.getInterfaceNameByIP parseIPv6 ip) h
   = (("", Some (metastonehack.ErrInvalidIP ip)), {| hostOf := h; trace := [] |})
   /\ metastonehack.kind (metastonehack.ErrInvalidIP ip) = metastonehack.InvalidIP)
  /\ (forall targetIP interfaces,
      net.ParseIP parseIPv6 ip = Some targetIP ->
      LinkList h = (interfaces, None) ->
      Forall (fun l => snd (AddrList l h) = None) interfaces ->
      run (metastonehack.getInterfaceNameByIP parseIPv6 ip) h
      = (match List.find
                 (fun l => existsb (fun addr => net.Equal (Addr_IP addr) targetIP)
                                   (fst (AddrList l h)))
                 interfaces with
         | Some l => (Attrs_Name l, None)
         | None => ("", Some (metastonehack.ErrNoInterface ip))
         end,
         {| hostOf := h; trace := [] |})
      /\ metastonehack.kind (metastonehack.ErrNoInterface ip)
         = metastonehack.InterfaceNotFound).
Proof.
  unfold run, metastonehack.getInterfaceNameByIP. split.
  - intros ->. split; reflexivity.
  - intros targetIP interfaces -> Hlinks Hall. split; [|reflexivity].
    unfold bind, netlink_LinkList. cbn [hostOf]. rewrite Hlinks.
    match goal with |- ?c ?w = _ => rewrite (surjective_pairing (c w)) end.
    rewrite findInterface_reads_only, findInterface_first by exact Hall.
    cbn [hostOf]. f_equal.
    rewrite (find_ext _ (fun l => existsb (fun addr => net.Equal (Addr_IP addr) targetIP)
                                          (fst (AddrList l h)))); [reflexivity|].
    intros l. apply ownsIP_existsb.
Qed.

End LocatorProperties.

(** ** Client constructors of the workload cluster *)

Section WorkloadProperties.
Import workloadcluster.
Context {H : Type} `{Host H}.
Variables RestConfig Scheme WorkloadClient K8sClient : Type.
Variable RESTConfigFromKubeConfig : string -> RestConfig * option goerror.
Variable Client_Scheme : Client -> Scheme.
Variable client_New : RestConfig -> Scheme -> WorkloadClient * option goerror.
Variable k8sclient_NewForConfig : RestConfig -> K8sClient * option goerror.

#[local] Abbreviation GenerateClient :=
  (GenerateWorkloadClusterClient (H := H) RestConfig Scheme WorkloadClient
     RESTConfigFromKubeConfig Client_Scheme client_New).
#[local] Abbreviation GenerateK8sClient :=
  (GenerateWorkloadClusterK8sClient (H := H) RestConfig K8sClient
     RESTConfigFromKubeConfig k8sclient_NewForConfig).
#[local] Abbreviation clientOf :=
  (clientFromKubeconfig RestConfig Scheme WorkloadClient
     RESTConfigFromKubeConfig Client_Scheme client_New).
#[local] Abbreviation k8sClientOf :=
  (k8sClientFromKubeconfig RestConfig K8sClient
     RESTConfigFromKubeConfig k8sclient_NewForConfig).

Lemma routeViaManagerGW_skips fn ctx (w : World H) :
  gateClosed ctx (hostOf w) -> routeViaManagerGW fn ctx w = (tt, w).
Proof.
  unfold gateClosed, routeViaManagerGW, markerFile.
  intros [Hnil | [(labels & Hlabels & Hgw) | [Hhost | (fi & Hstat)]]].
  - rewrite Hnil. reflexivity.
  - rewrite Hlabels, Hgw. reflexivity.
  - destruct (Labels _); [|reflexivity]. rewrite Hhost.
    rewrite andb_false_r. reflexivity.
  - destruct (Labels _); [|reflexivity].
    destruct (_ && _); [|reflexivity].
    unfold bind, os_Stat. rewrite Hstat. reflexivity.
Qed.

(** With the gate open the block runs the route add, writes the marker,
    then runs ethtool and sysctl, printing after each of the two when it
    failed; no result is looked at before the marker is written. *)
Lemma routeViaManagerGW_reconfigures fn ctx (h : H) labels :
  Labels (ctx_KubevirtCluster ctx) = Some labels ->
  index labels "metastone/manager-gw" <> "" ->
  Spec_ControlPlaneEndpoint_Host (ctx_KubevirtCluster ctx) <> "" ->
  (forall fi, Stat (markerFile (Spec_ControlPlaneEndpoint_Host (ctx_KubevirtCluster ctx))) h
              <> (Some fi, None)) ->
  exists p1 p2,
    trace (snd (run (routeViaManagerGW fn ctx) h))
    = ipRouteAdd (Spec_ControlPlaneEndpoint_Host (ctx_KubevirtCluster ctx) +:+ "/32")
                 (index labels "metastone/manager-gw")
      :: Write (markerFile (Spec_ControlPlaneEndpoint_Host (ctx_KubevirtCluster ctx)))
               (index labels "metastone/manager-gw")
      :: ethtoolOffload "net1" :: p1 ++ sysctlProbing :: p2
    /\ commands p1 = [] /\ writes p1 = []
    /\ commands p2 = [] /\ writes p2 = [].
Proof.
  intros Hlabels Hgw Hhost Hstat.
  unfold run, routeViaManagerGW, markerFile in *. rewrite Hlabels.
  apply String.eqb_neq in Hgw, Hhost. rewrite Hgw, Hhost. cbn [negb andb].
  unfold bind at 1. unfold os_Stat at 1. cbn [hostOf].
  destruct (Stat _ h) as [[fi|] [e|]] eqn:E;
    try (exfalso; exact (Hstat fi eq_refl));
    unfold bind, exec_Command, os_WriteFile, fmt_Printf, emit, ret;
    cbn [hostOf trace app];
    repeat (match goal with
            | |- context [CombinedOutput ?n ?a ?x] =>
                destruct (CombinedOutput n a x) as [[? [?|]] ?]
            | |- context [WriteFile ?f ?d ?x] =>
                destruct (WriteFile f d x) as [? ?]
            end; cbn [snd fst hostOf trace app]).
  all: match goal with
       | |- exists p1 p2, [_; _; _; ?a; _; ?b] = _ /\ _ => exists [a], [b]
       | |- exists p1 p2, [_; _; _; Print ?a; _] = _ /\ _ => exists [Print a], []
       | |- exists p1 p2, [_; _; _; _; ?b] = _ /\ _ => exists [], [b]
       | |- exists p1 p2, [_; _; _; _] = _ /\ _ => exists [], []
       end; repeat split; reflexivity.
Qed.

Ltac run_generate :=
  unfold run, GenerateWorkloadClusterClient, GenerateWorkloadClusterK8sClient,
    clientFromKubeconfig, k8sClientFromKubeconfig.

(** The clients returned are those built from the fetched kubeconfig,
    whatever is done to the host. *)
Lemma Generate_results w ctx (h : H) :
  fst (run (GenerateClient w ctx) h) = clientOf w ctx
  /\ fst (run (GenerateK8sClient w ctx) h) = k8sClientOf w ctx.
Proof.
  run_generate.
  destruct (getKubeconfigForWorkloadCluster w ctx) as [kubeConfig [e|]];
    [split; reflexivity|].
  destruct (RESTConfigFromKubeConfig kubeConfig) as [restConfig [e|]];
    [split; reflexivity|].
  unfold bind. split.
  - destruct (routeViaManagerGW _ ctx _) as [[] w'].
    destruct (client_New _ _) as [c [e|]]; reflexivity.
  - destruct (routeViaManagerGW _ ctx _) as [[] w'].
    destruct (k8sclient_NewForConfig _) as [c [e|]]; reflexivity.
Qed.

(** With the kubeconfig fetched and the REST configuration made, what the
    constructors do to the host is what their block does. *)
Lemma Generate_worlds w ctx (h : H) kubeConfig restConfig :
  getKubeconfigForWorkloadCluster w ctx = (kubeConfig, None) ->
  RESTConfigFromKubeConfig kubeConfig = (restConfig, None) ->
  snd (run (GenerateClient w ctx) h)
  = snd (run (routeViaManagerGW "GenerateWorkloadClusterClient" ctx) h)
  /\ snd (run (GenerateK8sClient w ctx) h)
     = snd (run (routeViaManagerGW "GenerateWorkloadClusterK8sClient" ctx) h).
Proof.
  intros Hkube Hrest. run_generate. rewrite Hkube, Hrest. unfold bind. split.
  - destruct (routeViaManagerGW _ ctx _) as [[] w'].
    destruct (client_New _ _) as [c [e|]]; reflexivity.
  - destruct (routeViaManagerGW _ ctx _) as [[] w'].
    destruct (k8sclient_NewForConfig _) as [c [e|]]; reflexivity.
Qed.

(** C10: when the cluster has no labels, or no manager-gateway label, or
    no control-plane endpoint host, or the marker file of that host is
    there already, the two constructors run no command, write no file and
    print nothing, the host is left as it was, and they return the client
    built from the fetched kubeconfig. *)
Theorem Generate_gate_closed w ctx (h : H) :
  gateClosed ctx h ->
  run (GenerateClient w ctx) h = (clientOf w ctx, {| hostOf := h; trace := [] |})
  /\ run (GenerateK8sClient w ctx) h
     = (k8sClientOf w ctx, {| hostOf := h; trace := [] |}).
Proof.
  intros Hgate. run_generate.
  destruct (getKubeconfigForWorkloadCluster w ctx) as [kubeConfig [e|]];
    [split; reflexivity|].
  destruct (RESTConfigFromKubeConfig kubeConfig) as [restConfig [e|]];
    [split; reflexivity|].
  unfold bind. rewrite !routeViaManagerGW_skips by exact Hgate. split.
  - destruct (client_New _ _) as [c [e|]]; reflexivity.
  - destruct (k8sclient_NewForConfig _) as [c [e|]]; reflexivity.
Qed.

(** C5, as the code has it: with the kubeconfig fetched, the manager
    gateway label and the endpoint host set, each constructor looks for
    the marker file /metastone/<host> first.  When it is there nothing is
    run or written.  When it is not, the route add command is run and then
    the marker is written with the gateway as content, whether or not the
    command succeeded; ethtool and sysctl follow. *)
Theorem marker_follows_route_add_attempt w ctx (h : H) labels kubeConfig restConfig :
  getKubeconfigForWorkloadCluster w ctx = (kubeConfig, None) ->
  RESTConfigFromKubeConfig kubeConfig = (restConfig, None) ->
  Labels (ctx_KubevirtCluster ctx) = Some labels ->
  index labels "metastone/manager-gw" <> "" ->
  Spec_ControlPlaneEndpoint_Host (ctx_KubevirtCluster ctx) <> "" ->
  let host := Spec_ControlPlaneEndpoint_Host (ctx_KubevirtCluster ctx) in
  let gw := index labels "metastone/manager-gw" in
  ((exists fi, Stat (markerFile host) h = (Some fi, None)) ->
   snd (run (GenerateClient w ctx) h) = {| hostOf := h; trace := [] |}
   /\ snd (run (GenerateK8sClient w ctx) h) = {| hostOf := h; trace := [] |})
  /\ ((forall fi, Stat (markerFile host) h <> (Some fi, None)) ->
      (exists p1 p2,
          trace (snd (run (GenerateClient w ctx) h))
          = ipRouteAdd (host +:+ "/32") gw :: Write (markerFile host) gw
            :: ethtoolOffload "net1" :: p1 ++ sysctlProbing :: p2
          /\ commands p1 = [] /\ writes p1 = []
          /\ commands p2 = [] /\ writes p2 = [])
      /\ (exists p1 p2,
          trace (snd (run (GenerateK8sClient w ctx) h))
          = ipRouteAdd (host +:+ "/32") gw :: Write (markerFile host) gw
            :: ethtoolOffload "net1" :: p1 ++ sysctlProbing :: p2
          /\ commands p1 = [] /\ writes p1 = []
          /\ commands p2 = [] /\ writes p2 = [])).
Proof.
  intros Hkube Hrest Hlabels Hgw Hhost host gw.
  destruct (Generate_worlds w ctx h kubeConfig restConfig Hkube Hrest) as [-> ->].
  split.
  - intros Hmarker. unfold run.
    rewrite !routeViaManagerGW_skips; [split; reflexivity | |];
      right; right; right; exact Hmarker.
  - intros Habsent.
    split; eapply routeViaManagerGW_reconfigures; eassumption.
Qed.

End WorkloadProperties.

(** ** The properties at concrete inputs *)

Section Concrete.
Import metastonehack workloadcluster.

#[local] Abbreviation demoClient :=
  (GenerateWorkloadClusterClient (H := SimHost) string unit string
     demo.restConfigOf demo.schemeOf demo.newClient).
#[local] Abbreviation demoK8sClient :=
  (GenerateWorkloadClusterK8sClient (H := SimHost) string string
     demo.restConfigOf demo.newK8sClient).

(** 10.4.0.0/33 is no CIDR, and 2001:db8::/32 is none of an IPv4 address. *)
Lemma managerGW_invalid_subnet_witness :
  (exists e, managerGWOfSubnet noIPv6 noIPv6String "10.4.0.0/33" = ("", Some e)
             /\ kind e = InvalidSubnet)
  /\ (exists e, managerGWOfSubnet onlyDocV6 noIPv6String "2001:db8::/32" = ("", Some e)
                /\ kind e = InvalidSubnet).
Proof.
  split.
  - exact (proj1 (managerGW_invalid_subnet noIPv6 noIPv6String "10.4.0.0/33"
                    (or_introl eq_refl))).
  - refine (proj1 (managerGW_invalid_subnet onlyDocV6 noIPv6String "2001:db8::/32" _)).
    right. do 2 eexists. split; reflexivity.
Defined.

(** A management cluster without tenant API server. *)
Lemma tenant_lookup_configuration_error_witness :
  exists e, getManagerGWFromDefaultTenant noIPv6 noIPv6String demo.noTenant = ("", Some e)
            /\ kind e = ConfigurationError.
Proof.
  refine (tenant_lookup_configuration_error noIPv6 noIPv6String demo.noTenant [] eq_refl _).
  left. discriminate.
Defined.

(** 203.0.113.5/32 is routed via 10.0.0.9 and 192.168.10.2 is asked for. *)
Lemma checkAndAddRoute_conflict_witness :
  Contains (showRoutes (routes demo.routedElsewhere)) "203.0.113.5/32" = true
  /\ Contains (showRoutes (routes demo.routedElsewhere)) "192.168.10.2" = false
  /\ exists w,
      run (checkAndAddRoute "203.0.113.5" "192.168.10.2") demo.routedElsewhere
      = (Some (ErrRouteConflict "203.0.113.5/32" "192.168.10.2"), w)
      /\ kind (ErrRouteConflict "203.0.113.5/32" "192.168.10.2") = RouteConflict
      /\ hostOf w = demo.routedElsewhere
      /\ commands (trace w) = [ipRouteShow]
      /\ occurrences (ipRouteAdd "203.0.113.5/32" "192.168.10.2") (trace w) = 0
      /\ writes (trace w) = [].
Proof.
  refine (conj eq_refl (conj eq_refl _)).
  exact (checkAndAddRoute_conflict demo.routedElsewhere demo.routedElsewhere
           "203.0.113.5" "192.168.10.2" _ eq_refl eq_refl eq_refl).
Defined.

(** The end-to-end scenario: an empty routing table, destination
    203.0.113.5, gateway 192.168.10.2. *)
Lemma checkAndAddRoute_adds_witness :
  exists r w,
    run (checkAndAddRoute "203.0.113.5" "192.168.10.2") emptyHost = (r, w)
    /\ commands (trace w) = [ipRouteShow; ipRouteAdd "203.0.113.5/32" "192.168.10.2"]
    /\ occurrences (ipRouteAdd "203.0.113.5/32" "192.168.10.2") (trace w) = 1
    /\ hostOf w
       = withRoutes [{| dst := "203.0.113.5/32"; via := "192.168.10.2"; dev := "net1" |}]
           emptyHost
    /\ (@None goerror = None -> r = None)
    /\ (forall e, @None goerror = Some e ->
          r = Some (ErrRouteAdd "203.0.113.5/32" "192.168.10.2" e)
          /\ kind (ErrRouteAdd "203.0.113.5/32" "192.168.10.2" e) = RouteAddFailed).
Proof.
  exact (checkAndAddRoute_adds emptyHost emptyHost _ "203.0.113.5" "192.168.10.2"
           "" "" None eq_refl eq_refl eq_refl eq_refl).
Defined.


(** A host whose ethtool fails: sysctl is not run. *)
Lemma disableTXOffload_stops_at_first_failure_witness :
  run (disableTXOffloadAndEnableMTUProbing "net1") demo.noEthtool
  = (Some (ErrOffload "exit status 1"),
     {| hostOf := demo.noEthtool; trace := [ethtoolOffload "net1"] |})
  /\ run (disableTXOffloadAndEnableMTUProbing "net1") emptyHost
     = (None, {| hostOf := emptyHost; trace := [ethtoolOffload "net1"; sysctlProbing] |}).
Proof.
  split.
  - exact (proj1 (proj1 (disableTXOffload_stops_at_first_failure demo.noEthtool "net1")
                    "" "exit status 1" demo.noEthtool eq_refl)).
  - exact (proj1 (proj2 (disableTXOffload_stops_at_first_failure emptyHost "net1"))
             "" emptyHost _ None emptyHost eq_refl eq_refl).
Defined.

(** C4 as stated fails on a host whose ethtool is out of order: the
    offload step fails and the sysctl step is not attempted. *)
Lemma offload_failure_blocks_mtu_probing :
  snd (fst (CombinedOutput "/usr/sbin/ethtool" ["--offload"; "net1"; "tx"; "off"]
              demo.noEthtool)) = Some "exit status 1"
  /\ fst (run (disableTXOffloadAndEnableMTUProbing "net1") demo.noEthtool)
     = Some (ErrOffload "exit status 1")
  /\ ~ In sysctlProbing
         (trace (snd (run (disableTXOffloadAndEnableMTUProbing "net1") demo.noEthtool))).
Proof.
  repeat split. cbn. intros [Heq | []]. discriminate Heq.
Qed.

(** The address 192.168.10.7 is on the second link; "gateway" is no IP. *)
Lemma getInterfaceNameByIP_first_owner_witness :
  run (getInterfaceNameByIP noIPv6 "gateway") demo.twoLinks
  = (("", Some (ErrInvalidIP "gateway")), {| hostOf := demo.twoLinks; trace := [] |})
  /\ run (getInterfaceNameByIP noIPv6 "192.168.10.7") demo.twoLinks
     = (("net1", None), {| hostOf := demo.twoLinks; trace := [] |})
  /\ run (getInterfaceNameByIP noIPv6 "192.168.10.8") demo.twoLinks
     = (("", Some (ErrNoInterface "192.168.10.8")),
        {| hostOf := demo.twoLinks; trace := [] |}).
Proof.
  split; [|split].
  - exact (proj1 (proj1 (getInterfaceNameByIP_first_owner noIPv6 demo.twoLinks "gateway")
                    eq_refl)).
  - refine (proj1 (proj2 (getInterfaceNameByIP_first_owner noIPv6 demo.twoLinks
                            "192.168.10.7") _ _ eq_refl eq_refl _)).
    repeat constructor.
  - refine (proj1 (proj2 (getInterfaceNameByIP_first_owner noIPv6 demo.twoLinks
                            "192.168.10.8") _ _ eq_refl eq_refl _)).
    repeat constructor.
Defined.

(** A host with the marker file of 203.0.113.5 in place. *)
Lemma marked_host_stat :
  Stat (markerFile "203.0.113.5")
       (withFiles {["/metastone/203.0.113.5" := "192.168.10.2"]} emptyHost)
  = (Some {| fi_name := "/metastone/203.0.113.5"; fi_size := 12 |}, None).
Proof. reflexivity. Qed.

(** The labelled cluster on a host with the marker in place, and on a host
    without it. *)
Lemma marker_follows_route_add_attempt_witness :
  (snd (run (demoClient demo.wc demo.labelled)
          (withFiles {["/metastone/203.0.113.5" := "192.168.10.2"]} emptyHost))
   = {| hostOf := withFiles {["/metastone/203.0.113.5" := "192.168.10.2"]} emptyHost;
        trace := [] |})
  /\ (exists p1 p2,
        trace (snd (run (demoK8sClient demo.wc demo.labelled) emptyHost))
        = ipRouteAdd "203.0.113.5/32" "192.168.10.2"
          :: Write "/metastone/203.0.113.5" "192.168.10.2"
          :: ethtoolOffload "net1" :: p1 ++ sysctlProbing :: p2
        /\ commands p1 = [] /\ writes p1 = []
        /\ commands p2 = [] /\ writes p2 = []).
Proof.
  assert (Hgw : index {["metastone/manager-gw" := "192.168.10.2"]} "metastone/manager-gw"
                <> "") by (vm_compute; discriminate).
  assert (Hhost : "203.0.113.5" <> "") by discriminate.
  split.
  - refine (proj1 (proj1 (marker_follows_route_add_attempt
                            string unit string string
                            demo.restConfigOf demo.schemeOf demo.newClient demo.newK8sClient
                            demo.wc demo.labelled
                            (withFiles {["/metastone/203.0.113.5" := "192.168.10.2"]} emptyHost)
                            _ "apiVersion: v1" "apiVersion: v1"
                            eq_refl eq_refl eq_refl Hgw Hhost) _)).
    eexists. exact marked_host_stat.
  - refine (proj2 (proj2 (marker_follows_route_add_attempt
                            string unit string string
                            demo.restConfigOf demo.schemeOf demo.newClient demo.newK8sClient
                            demo.wc demo.labelled emptyHost
                            _ "apiVersion: v1" "apiVersion: v1"
                            eq_refl eq_refl eq_refl Hgw Hhost) _)).
    intros fi. vm_compute. discriminate.
Defined.

(** C5 as stated fails on a host that already routes 203.0.113.5/32
    elsewhere: the route add command fails, no route via the gateway is
    there afterwards, and yet both constructors write the marker file. *)
Lemma marker_written_after_failed_route_add :
  snd (fst (CombinedOutput "ip" ["route"; "add"; "203.0.113.5/32"; "via"; "192.168.10.2"]
              demo.routedElsewhere)) = Some "exit status 2"
  /\ files demo.routedElsewhere !! "/metastone/203.0.113.5" = None
  /\ (let w := snd (run (demoClient demo.wc demo.labelled) demo.routedElsewhere) in
      files (hostOf w) !! "/metastone/203.0.113.5" = Some "192.168.10.2"
      /\ routes (hostOf w) = routes demo.routedElsewhere
      /\ trace w = [ipRouteAdd "203.0.113.5/32" "192.168.10.2";
                    Write "/metastone/203.0.113.5" "192.168.10.2";
                    ethtoolOffload "net1"; sysctlProbing])
  /\ (let w := snd (run (demoK8sClient demo.wc demo.labelled) demo.routedElsewhere) in
      files (hostOf w) !! "/metastone/203.0.113.5" = Some "192.168.10.2"
      /\ routes (hostOf w) = routes demo.routedElsewhere).
Proof. vm_compute. repeat split. Qed.

(** A cluster without labels on a host without marker. *)
Lemma Generate_gate_closed_witness :
  run (demoClient demo.wc demo.unlabelled) emptyHost
  = ((Some "apiVersion: v1", None), {| hostOf := emptyHost; trace := [] |})
  /\ run (demoK8sClient demo.wc demo.unlabelled) emptyHost
     = ((Some "apiVersion: v1", None), {| hostOf := emptyHost; trace := [] |}).
Proof.
  exact (Generate_gate_closed string unit string string
           demo.restConfigOf demo.schemeOf demo.newClient demo.newK8sClient
           demo.wc demo.unlabelled emptyHost (or_introl eq_refl)).
Defined.

End Concrete.

(** ** Dotted quads: printing and parsing *)

Section DottedQuads.
Import chars.

Lemma octets_ok : forallb octetText_ok octets = true.
Proof. vm_compute. reflexivity. Qed.

Lemma octet_in (a : N) : (a < 256)%N -> In a octets.
Proof.
  intros Ha. unfold octets. rewrite <- (N2Nat.id a).
  apply in_map, in_seq. lia.
Qed.

Lemma octet_text (a : N) : (a < 256)%N -> octetText_ok a = true.
Proof.
  intros Ha. exact (proj1 (forallb_forall _ _) octets_ok a (octet_in a Ha)).
Qed.

(** The facts about the decimal text of a byte, one by one. *)
Lemma octet_facts (a : N) :
  (a < 256)%N ->
  allChars net.isDigit (itoa a) = true
  /\ String.length (itoa a) <> 0
  /\ (Nat.ltb 1 (String.length (itoa a)) && net.firstIs (itoa a) "0") = false
  /\ net.dtoi (itoa a) = (a, String.length (itoa a), true).
Proof.
  intros Ha. pose proof (octet_text a Ha) as Hok. unfold octetText_ok in Hok.
  cbv zeta in Hok. destruct (net.dtoi (itoa a)) as [[n i] ok].
  rewrite !andb_true_iff in Hok.
  destruct Hok as [[[Hdigits Hlen] Hzero] [[Hn Hi] Hok]].
  repeat split.
  - exact Hdigits.
  - intros Hnil. rewrite Hnil in Hlen. discriminate.
  - destruct (_ && _); [discriminate | reflexivity].
  - apply N.eqb_eq in Hn. apply Nat.eqb_eq in Hi. congruence.
Qed.

Lemma append_nil_l (s : string) : "" +:+ s = s.
Proof. reflexivity. Qed.

Lemma append_nil_r (s : string) : s +:+ "" = s.
Proof.
  induction s as [|c s IH]; [reflexivity|].
  rewrite append_cons, IH. reflexivity.
Qed.

Lemma allChars_append P s t :
  allChars P (s +:+ t) = allChars P s && allChars P t.
Proof.
  induction s as [|c s IH]; [reflexivity|].
  rewrite append_cons. cbn [allChars]. rewrite IH, andb_assoc. reflexivity.
Qed.

Lemma drop_append s rest : drop (String.length s) (s +:+ rest) = rest.
Proof.
  induction s as [|c s IH]; [reflexivity|].
  rewrite append_cons. exact IH.
Qed.

Lemma take_append s rest : take (String.length s) (s +:+ rest) = s.
Proof.
  unfold take. induction s as [|c s IH].
  - destruct rest; reflexivity.
  - rewrite append_cons. cbn [String.length String.substring]. rewrite IH. reflexivity.
Qed.

(** [dtoi] stops at the first character that is no digit. *)
Lemma dtoi_from_append s rest n i :
  allChars net.isDigit s = true ->
  startsWith net.isDigit rest = false ->
  net.dtoi_from (s +:+ rest) n i = net.dtoi_from s n i.
Proof.
  intros Hs Hrest. revert n i.
  induction s as [|c s IH]; intros n i.
  - rewrite append_nil_l. destruct rest as [|c rest]; [reflexivity|].
    cbn in Hrest. cbn [net.dtoi_from]. rewrite Hrest. reflexivity.
  - rewrite append_cons. cbn [allChars] in Hs. apply andb_prop in Hs as [Hc Hs].
    cbn [net.dtoi_from]. rewrite Hc.
    destruct (_ <=? _)%N; [reflexivity | apply IH, Hs].
Qed.

(** One round of the loop of [parseIPv4] on the text of a byte. *)
Lemma parseIPv4_loop_octet todo (first : bool) a rest :
  (a < 256)%N ->
  startsWith net.isDigit rest = false ->
  net.parseIPv4_loop (S todo) first ((if first then "" else ".") +:+ itoa a +:+ rest)
  = match net.parseIPv4_loop todo false rest with
    | Some (p, r) => Some (a :: p, r)
    | None => None
    end.
Proof.
  intros Ha Hrest.
  destruct (octet_facts a Ha) as (Hdigits & Hlen & Hzero & Hdtoi).
  assert (Hs : (if first then itoa a +:+ rest
                else drop 1 ("." +:+ itoa a +:+ rest)) = itoa a +:+ rest)
    by (destruct first; reflexivity).
  assert (Hread : net.dtoi (itoa a +:+ rest) = (a, String.length (itoa a), true)).
  { unfold net.dtoi in *. rewrite dtoi_from_append by assumption. exact Hdtoi. }
  assert (Hfirst : net.firstIs (itoa a +:+ rest) "0" = net.firstIs (itoa a) "0").
  { destruct (itoa a); [contradiction | reflexivity]. }
  assert (Hnonempty : Nat.eqb (String.length ((if first then "" else ".") +:+ itoa a +:+ rest)) 0
                      = false).
  { destruct first; [|reflexivity].
    rewrite append_nil_l. destruct (itoa a); [contradiction | reflexivity]. }
  cbn [net.parseIPv4_loop]. rewrite Hnonempty.
  replace (negb first && negb (net.firstIs ((if first then "" else ".") +:+ itoa a +:+ rest) "."))
    with false by (destruct first; reflexivity).
  replace (if first then (if first then "" else ".") +:+ itoa a +:+ rest
           else drop 1 ((if first then "" else ".") +:+ itoa a +:+ rest))
    with (itoa a +:+ rest) by (destruct first; reflexivity).
  rewrite Hread, Hfirst, Hzero, drop_append.
  replace (255 <? a)%N with false by (symmetry; apply N.ltb_ge; lia).
  cbn [negb orb]. unfold net.byte. rewrite N.mod_small by exact Ha. reflexivity.
Qed.

Lemma startsWith_dot rest : startsWith net.isDigit ("." +:+ rest) = false.
Proof. reflexivity. Qed.

(** [parseIPv4] reads back the dotted quad of four bytes. *)
Lemma parseIPv4_dotted ipv6String a b c d :
  (a < 256)%N -> (b < 256)%N -> (c < 256)%N -> (d < 256)%N ->
  net.parseIPv4 (net.IP_String ipv6String [a; b; c; d]) = Some (net.IPv4 a b c d).
Proof.
  intros Ha Hb Hc Hd. unfold net.parseIPv4, net.IPv4len.
  change (net.IP_String ipv6String [a; b; c; d])
    with ("" +:+ itoa a +:+ "." +:+ itoa b +:+ "." +:+ itoa c +:+ "." +:+ itoa d).
  rewrite <- (append_nil_r (itoa d)) at 1.
  rewrite (parseIPv4_loop_octet 3 true a) by (assumption || reflexivity).
  rewrite (parseIPv4_loop_octet 2 false b) by (assumption || reflexivity).
  rewrite (parseIPv4_loop_octet 1 false c) by (assumption || reflexivity).
  rewrite (parseIPv4_loop_octet 0 false d) by (assumption || reflexivity).
  reflexivity.
Qed.

Lemma allChars_impl (P Q : ascii -> bool) s :
  (forall c, P c = true -> Q c = true) -> allChars P s = true -> allChars Q s = true.
Proof.
  intros HPQ. induction s as [|c s IH]; [reflexivity|].
  cbn [allChars]. intros Hs. apply andb_prop in Hs as [Hc Hs].
  rewrite (HPQ c Hc), (IH Hs). reflexivity.
Qed.

(** A digit is none of the separators. *)
Lemma digit_not_separator c :
  net.isDigit c = true ->
  Ascii.eqb c "." = false /\ Ascii.eqb c ":" = false /\ Ascii.eqb c "/" = false.
Proof.
  intros Hc. repeat split;
    match goal with |- Ascii.eqb c ?x = false =>
      destruct (Ascii.eqb_spec c x) as [-> |]; [discriminate Hc | reflexivity]
    end.
Qed.

(** The dotted quad of four bytes is made of digits and dots. *)
Lemma dotted_chars ipv6String a b c d :
  (a < 256)%N -> (b < 256)%N -> (c < 256)%N -> (d < 256)%N ->
  allChars (fun x => net.isDigit x || Ascii.eqb x ".")
           (net.IP_String ipv6String [a; b; c; d]) = true.
Proof.
  intros Ha Hb Hc Hd.
  change (net.IP_String ipv6String [a; b; c; d])
    with (itoa a +:+ "." +:+ itoa b +:+ "." +:+ itoa c +:+ "." +:+ itoa d).
  assert (Hdigits : forall x, (x < 256)%N ->
            allChars (fun x => net.isDigit x || Ascii.eqb x ".") (itoa x) = true).
  { intros x Hx. apply (allChars_impl net.isDigit); [|apply octet_facts, Hx].
    intros ch ->. reflexivity. }
  rewrite !allChars_append, !Hdigits by assumption. reflexivity.
Qed.

Lemma IndexByte_append s c t :
  allChars (fun x => negb (Ascii.eqb x c)) s = true ->
  IndexByte (s +:+ String c t) c = Some (String.length s).
Proof.
  induction s as [|x s IH]; intros Hs.
  - rewrite append_nil_l. cbn. rewrite Ascii.eqb_refl. reflexivity.
  - cbn [allChars] in Hs. apply andb_prop in Hs as [Hx Hs].
    rewrite append_cons. cbn [IndexByte String.length].
    apply negb_true_iff in Hx. rewrite Hx, (IH Hs). reflexivity.
Qed.

Lemma drop_append_cons s c t : drop (S (String.length s)) (s +:+ String c t) = t.
Proof.
  induction s as [|x s IH]; [reflexivity|].
  rewrite append_cons. exact IH.
Qed.

Lemma length_CIDRMask_bytes l n : length (net.CIDRMask_bytes l n) = l.
Proof.
  revert n. induction l as [|l IH]; intros n; [reflexivity|].
  cbn [net.CIDRMask_bytes]. destruct (8 <=? n)%N; cbn [length]; rewrite IH; reflexivity.
Qed.

Lemma Mask_IPv4 a b c d (m : net.IPMask) :
  length m = 4 ->
  net.Mask (net.IPv4 a b c d) m = Some (net.andBytes [a; b; c; d] m).
Proof.
  intros Hm. unfold net.Mask. rewrite Hm. cbn. rewrite Hm. reflexivity.
Qed.

(** [ParseCIDR] on a dotted quad, a slash and a prefix length up to 32:
    the address is the quad, the network is the quad under the mask. *)
Lemma ParseCIDR_dotted parseIPv6 ipv6String a b c d n :
  (a < 256)%N -> (b < 256)%N -> (c < 256)%N -> (d < 256)%N -> (n <= 32)%N ->
  net.ParseCIDR parseIPv6 (net.IP_String ipv6String [a; b; c; d] +:+ "/" +:+ itoa n)
  = Some (net.IPv4 a b c d,
          {| net.IPNet_IP := net.andBytes [a; b; c; d] (net.CIDRMask_bytes 4 n);
             net.IPNet_Mask := net.CIDRMask_bytes 4 n |}).
Proof.
  intros Ha Hb Hc Hd Hn.
  assert (Hn' : (n < 256)%N) by lia.
  destruct (octet_facts n Hn') as (_ & _ & _ & Hdtoi).
  unfold net.ParseCIDR.
  change ("/" +:+ itoa n) with (String "/" (itoa n)).
  rewrite IndexByte_append.
  2:{ apply (allChars_impl (fun x => net.isDigit x || Ascii.eqb x "."));
        [|apply dotted_chars; assumption].
      intros ch Hch. apply orb_prop in Hch as [Hdigit | Hdot].
      - apply negb_true_iff, digit_not_separator, Hdigit.
      - apply Ascii.eqb_eq in Hdot. subst ch. reflexivity. }
  rewrite take_append, drop_append_cons, parseIPv4_dotted by assumption.
  rewrite Hdtoi. rewrite Nat.eqb_refl.
  replace (N.of_nat (8 * net.IPv4len) <? n)%N with false
    by (symmetry; apply N.ltb_ge; cbn; lia).
  cbn [negb orb]. unfold net.CIDRMask.
  replace (N.of_nat (8 * net.IPv4len) <? n)%N with false
    by (symmetry; apply N.ltb_ge; cbn; lia).
  cbn [net.IPv4len Nat.mul Nat.add Nat.eqb negb andb net.nilable].
  change (32 / 8) with 4.
  rewrite Mask_IPv4 by apply length_CIDRMask_bytes. reflexivity.
Qed.

Lemma ParseIP_scan_digits parseIPv6 whole s t :
  allChars net.isDigit s = true ->
  net.ParseIP_scan parseIPv6 whole (s +:+ String "." t) = net.parseIPv4 whole.
Proof.
  induction s as [|x s IH]; intros Hs; [reflexivity|].
  cbn [allChars] in Hs. apply andb_prop in Hs as [Hx Hs].
  rewrite append_cons. cbn [net.ParseIP_scan].
  destruct (digit_not_separator x Hx) as (-> & -> & _). exact (IH Hs).
Qed.

(** [ParseIP] reads back the dotted quad of four bytes. *)
Lemma ParseIP_dotted parseIPv6 ipv6String a b c d :
  (a < 256)%N -> (b < 256)%N -> (c < 256)%N -> (d < 256)%N ->
  net.ParseIP parseIPv6 (net.IP_String ipv6String [a; b; c; d])
  = Some (net.IPv4 a b c d).
Proof.
  intros Ha Hb Hc Hd. unfold net.ParseIP.
  rewrite <- (parseIPv4_dotted ipv6String a b c d) by assumption.
  change (net.IP_String ipv6String [a; b; c; d])
    with (itoa a +:+ String "." (itoa b +:+ "." +:+ itoa c +:+ "." +:+ itoa d)) at 2.
  apply ParseIP_scan_digits, octet_facts, Ha.
Qed.

End DottedQuads.

(** ** More on the gateway resolver *)

Section GatewayOnDottedQuads.
Variable parseIPv6 : string -> option net.IP.
Variable ipv6String : net.IP -> string.

#[local] Abbreviation quad a b c d := (net.IP_String ipv6String [a; b; c; d]).
#[local] Abbreviation resolve := (metastonehack.managerGWOfSubnet parseIPv6 ipv6String).

Lemma managerGWOfSubnet_dotted a b c d n :
  (a < 256)%N -> (b < 256)%N -> (c < 256)%N -> (d < 256)%N -> (n <= 32)%N ->
  resolve (quad a b c d +:+ "/" +:+ itoa n) = (quad a b c 2%N, None).
Proof.
  intros Ha Hb Hc Hd Hn.
  rewrite (managerGWOfSubnet_ok parseIPv6 ipv6String _ _ _ [a; b; c; d]
             (ParseCIDR_dotted parseIPv6 ipv6String a b c d n Ha Hb Hc Hd Hn) eq_refl).
  reflexivity.
Qed.

(** X1: On the text a.b.c.d/n of an IPv4 CIDR the resolver returns the text
    a.b.c.2: neither the last octet nor the prefix length has a part in
    the gateway. *)
Theorem managerGW_of_dotted_cidr a b c d n :
  (a < 256)%N -> (b < 256)%N -> (c < 256)%N -> (d < 256)%N -> (n <= 32)%N ->
  resolve (quad a b c d +:+ "/" +:+ itoa n) = (quad a b c 2%N, None)
  /\ forall d' n', (d' < 256)%N -> (n' <= 32)%N ->
       resolve (quad a b c d' +:+ "/" +:+ itoa n')
       = resolve (quad a b c d +:+ "/" +:+ itoa n).
Proof.
  intros Ha Hb Hc Hd Hn. split.
  - apply managerGWOfSubnet_dotted; assumption.
  - intros d' n' Hd' Hn'. rewrite !managerGWOfSubnet_dotted by assumption. reflexivity.
Qed.

(** X2: The gateway returned for an IPv4 CIDR is the text of an IP address:
    [net.ParseIP] reads it back as a.b.c.2, and the resolver maps the
    gateway, taken as a CIDR with any prefix length, to itself. *)
Theorem managerGW_parses_back a b c d n :
  (a < 256)%N -> (b < 256)%N -> (c < 256)%N -> (d < 256)%N -> (n <= 32)%N ->
  let gw := fst (resolve (quad a b c d +:+ "/" +:+ itoa n)) in
  net.ParseIP parseIPv6 gw = Some (net.IPv4 a b c 2%N)
  /\ forall n', (n' <= 32)%N -> resolve (gw +:+ "/" +:+ itoa n') = (gw, None).
Proof.
  intros Ha Hb Hc Hd Hn gw. subst gw.
  rewrite managerGWOfSubnet_dotted by assumption. cbn [fst]. split.
  - apply ParseIP_dotted; (assumption || reflexivity).
  - intros n' Hn'. apply managerGWOfSubnet_dotted; (assumption || reflexivity).
Qed.

Lemma andBytes_idempotent q m :
  net.bytesEqual (net.andBytes (net.andBytes q m) m) (net.andBytes q m) = true.
Proof.
  revert m. induction q as [|x q IH]; intros [|y m]; try reflexivity.
  cbn [net.andBytes net.bytesEqual].
  rewrite <- N.land_assoc, N.land_diag, N.eqb_refl. apply IH.
Qed.

Lemma high_octet_leaves_network :
  forallb (fun d =>
    forallb (fun n =>
      implb ((128 <=? d) && (25 <=? n) && (n <=? 32))%N
            (negb (N.eqb (N.land (N.land d (nth 3 (net.CIDRMask_bytes 4 n) 0%N))
                                 (nth 3 (net.CIDRMask_bytes 4 n) 0%N))
                         (N.land 2%N (nth 3 (net.CIDRMask_bytes 4 n) 0%N)))))
      chars.octets) chars.octets = true.
Proof. vm_compute. reflexivity. Qed.

(** X3: With a prefix longer than 24 bits and a last octet of 128 or more, the
    address written in the CIDR lies in its network and the gateway the
    resolver returns does not. *)
Theorem managerGW_outside_long_prefix a b c d n :
  (a < 256)%N -> (b < 256)%N -> (c < 256)%N -> (128 <= d < 256)%N ->
  (25 <= n <= 32)%N ->
  exists ip network gw,
    net.ParseCIDR parseIPv6 (quad a b c d +:+ "/" +:+ itoa n) = Some (ip, network)
    /\ subnet.Contains network ip = true
    /\ resolve (quad a b c d +:+ "/" +:+ itoa n) = (gw, None)
    /\ net.ParseIP parseIPv6 gw = Some (net.IPv4 a b c 2%N)
    /\ subnet.Contains network (net.IPv4 a b c 2%N) = false.
Proof.
  intros Ha Hb Hc [Hd128 Hd] [Hn25 Hn].
  do 3 eexists. split; [apply ParseCIDR_dotted; assumption|].
  split; [|split; [apply managerGWOfSubnet_dotted; assumption|split]].
  - unfold subnet.Contains. cbn [net.To4 net.IPv4 net.v4InV6Prefix app forallb
      net.IPNet_IP net.IPNet_Mask].
    rewrite !N.eqb_refl. cbn [andb].
    pose proof (length_CIDRMask_bytes 4 n) as Hlen.
    destruct (net.CIDRMask_bytes 4 n) as [|m0 [|m1 [|m2 [|m3 [|]]]]]; try discriminate.
    cbn [net.andBytes length Nat.eqb andb].
    apply (andBytes_idempotent [a; b; c; d] [m0; m1; m2; m3]).
  - apply ParseIP_dotted; (assumption || reflexivity).
  - pose proof (proj1 (forallb_forall _ _) high_octet_leaves_network d
                  (octet_in d Hd)) as Hcheck.
    cbv beta in Hcheck.
    pose proof (proj1 (forallb_forall _ _) Hcheck n (octet_in n ltac:(lia))) as Hdn.
    cbv beta in Hdn.
    replace ((128 <=? d) && (25 <=? n) && (n <=? 32))%N with true in Hdn.
    2:{ symmetry. rewrite !andb_true_iff, !N.leb_le. lia. }
    cbn [implb] in Hdn. apply negb_true_iff in Hdn.
    unfold subnet.Contains. cbn [net.To4 net.IPv4 net.v4InV6Prefix app forallb
      net.IPNet_IP net.IPNet_Mask].
    rewrite !N.eqb_refl. cbn [andb].
    pose proof (length_CIDRMask_bytes 4 n) as Hlen.
    destruct (net.CIDRMask_bytes 4 n) as [|m0 [|m1 [|m2 [|m3 [|]]]]]; try discriminate.
    cbn [nth] in Hdn.
    cbn [net.andBytes length Nat.eqb andb net.bytesEqual].
    rewrite Hdn. rewrite !andb_false_r. reflexivity.
Qed.

(** X4: Whatever the management cluster answers, [getManagerGWFromDefaultTenant]
    returns either an error with the empty string, or no error with a
    gateway text that is not empty. *)
Theorem getManagerGW_gateway_or_error (runtimeClient : Client) :
  let r := metastonehack.getManagerGWFromDefaultTenant parseIPv6 ipv6String runtimeClient in
  (snd r = None -> fst r <> "") /\ (snd r <> None -> fst r = "").
Proof.
  assert (Hblock : forall s,
            (snd (resolve s) = None -> fst (resolve s) <> "")
            /\ (snd (resolve s) <> None -> fst (resolve s) = "")).
  { intros s. unfold metastonehack.managerGWOfSubnet.
    destruct (net.ParseCIDR parseIPv6 s) as [[ip network]|]; [|split; [discriminate | reflexivity]].
    destruct (net.To4 ip) as [a4|] eqn:Hto4; [|split; [discriminate | reflexivity]].
    pose proof (To4_length _ _ Hto4) as Hlen.
    destruct a4 as [|x [|y [|z [|w [|]]]]]; try discriminate.
    cbn [fst snd]. split; [|congruence]. intros _.
    change (net.IP_String ipv6String (<[3 := 2%N]> [x; y; z; w]))
      with (itoa x +:+ "." +:+ itoa y +:+ "." +:+ itoa z +:+ "." +:+ itoa 2).
    destruct (itoa x); discriminate. }
  unfold metastonehack.getManagerGWFromDefaultTenant.
  destruct (List runtimeClient _ _) as [items [e|]]; cbn zeta;
    [split; [discriminate | reflexivity]|].
  destruct items as [|item [|item' items]]; try (split; [discriminate | reflexivity]).
  destruct (String.eqb _ ""); [split; [discriminate | reflexivity] | apply Hblock].
Qed.

(** X5: The error for a subnet that is not IPv4 does not name the subnet: its
    message is the same for every such subnet and prints the nil address. *)
Theorem not_ipv4_message_omits_subnet s ip network :
  net.ParseCIDR parseIPv6 s = Some (ip, network) ->
  net.To4 ip = None ->
  exists e,
    resolve s = ("", Some e)
    /\ metastonehack.Error e
       = "unexpected configuration: ten-mng in namespace ten-mng's subnet <nil> is not IPv4".
Proof.
  intros Hparse Hto4. unfold metastonehack.managerGWOfSubnet.
  rewrite Hparse, Hto4. eexists. split; reflexivity.
Qed.

End GatewayOnDottedQuads.

(** ** More on the route reconciler *)

Section RouteFrame.
Context {H : Type} `{Host H}.

Ltac run_checkAndAddRoute :=
  unfold run, metastonehack.checkAndAddRoute, bind, exec_Command, fmt_Printf, emit, ret;
  cbn [hostOf trace app].

(** X6: Whatever the host answers, [checkAndAddRoute] writes no file and runs
    either the query alone or the query followed by the one add command
    for destination/32 via the gateway; it runs no other command. *)
Theorem checkAndAddRoute_commands (h : H) dst gw :
  let w := snd (run (metastonehack.checkAndAddRoute dst gw) h) in
  writes (trace w) = []
  /\ (commands (trace w) = [ipRouteShow]
      \/ commands (trace w) = [ipRouteShow; ipRouteAdd (dst +:+ "/32") gw]).
Proof.
  run_checkAndAddRoute.
  destruct (CombinedOutput "ip" ["route"; "show"] h) as [[out [e|]] h1];
    cbn [hostOf trace app fst snd]; [split; [reflexivity | left; reflexivity]|].
  destruct (Contains out (dst +:+ "/32")), (Contains out gw); cbn [andb negb];
    try (split; [reflexivity | left; reflexivity]);
    cbn [hostOf trace app];
    destruct (CombinedOutput "ip" _ h1) as [[out' [e|]] h2];
    cbn [hostOf trace app fst snd]; split; (reflexivity || (right; reflexivity)).
Qed.

(** X7: The add command is run exactly when the query succeeds and its output
    does not show destination/32; when the output shows destination/32,
    with whatever gateway, or the query fails, no add command is run. *)
Theorem checkAndAddRoute_adds_iff_absent (h h1 : H) dst gw out err :
  CombinedOutput "ip" ["route"; "show"] h = ((out, err), h1) ->
  occurrences (ipRouteAdd (dst +:+ "/32") gw)
    (trace (snd (run (metastonehack.checkAndAddRoute dst gw) h)))
  = match err with
    | Some _ => 0
    | None => if Contains out (dst +:+ "/32") then 0 else 1
    end.
Proof.
  intros Hshow. run_checkAndAddRoute. rewrite Hshow.
  cbn [hostOf trace app fst snd]. unfold occurrences, ipRouteAdd.
  destruct err as [e|]; [cbn; case_bool_decide; [discriminate | reflexivity]|].
  destruct (Contains out (dst +:+ "/32")), (Contains out gw); cbn [andb negb];
    cbn [hostOf trace app];
    try destruct (CombinedOutput "ip" _ h1) as [[out' [e|]] h2];
    cbn [hostOf trace app fst snd List.filter];
    repeat case_bool_decide; try discriminate; try congruence; reflexivity.
Qed.

(** X8: What a nil result means: the query succeeded, and either its output
    shows destination/32 and the gateway string, or it does not show
    destination/32 and the add command succeeded. *)
Theorem checkAndAddRoute_nil_iff (h : H) dst gw :
  fst (run (metastonehack.checkAndAddRoute dst gw) h) = None
  <-> exists out h1,
        CombinedOutput "ip" ["route"; "show"] h = ((out, None), h1)
        /\ ((Contains out (dst +:+ "/32") = true /\ Contains out gw = true)
            \/ (Contains out (dst +:+ "/32") = false
                /\ snd (fst (CombinedOutput "ip"
                               ["route"; "add"; dst +:+ "/32"; "via"; gw] h1))
                   = None)).
Proof.
  run_checkAndAddRoute.
  destruct (CombinedOutput "ip" ["route"; "show"] h) as [[out [e|]] h1];
    cbn [hostOf trace app fst snd].
  { split; [discriminate|]. intros (out' & h1' & Heq & _). discriminate Heq. }
  destruct (Contains out (dst +:+ "/32")) eqn:Hdst, (Contains out gw) eqn:Hgw;
    cbn [andb negb hostOf trace app].
  - split; [|reflexivity]. intros _. exists out, h1. rewrite Hdst, Hgw. auto.
  - split; [discriminate|]. intros (out' & h1' & Heq & Hcase).
    injection Heq as <- <-. rewrite Hdst, Hgw in Hcase.
    destruct Hcase as [[_ Hcase] | [Hcase _]]; discriminate Hcase.
  - destruct (CombinedOutput "ip" _ h1) as [[out' [e|]] h2] eqn:Hadd;
      cbn [hostOf trace app fst snd].
    + split; [discriminate|]. intros (out'' & h1' & Heq & Hcase).
      injection Heq as <- <-. rewrite Hadd in Hcase. cbn in Hcase.
      destruct Hcase as [[Hcase _] | [_ Hcase]]; congruence.
    + split; [|reflexivity]. intros _. exists out, h1. rewrite Hadd, Hdst. auto.
  - destruct (CombinedOutput "ip" _ h1) as [[out' [e|]] h2] eqn:Hadd;
      cbn [hostOf trace app fst snd].
    + split; [discriminate|]. intros (out'' & h1' & Heq & Hcase).
      injection Heq as <- <-. rewrite Hadd in Hcase. cbn in Hcase.
      destruct Hcase as [[Hcase _] | [_ Hcase]]; congruence.
    + split; [|reflexivity]. intros _. exists out, h1. rewrite Hadd, Hdst. auto.
Qed.

(** X9: The two strings are looked for apart from each other: when one part
    of the table shows destination/32 and another part shows the gateway
    string, as the gateway of some other route, [checkAndAddRoute] reports
    the route as present, returns nil and adds nothing. *)
Theorem checkAndAddRoute_strings_apart (h h1 : H) dst gw part1 part2 :
  CombinedOutput "ip" ["route"; "show"] h = ((part1 +:+ part2, None), h1) ->
  (Contains part1 (dst +:+ "/32") = true /\ Contains part2 gw = true)
  \/ (Contains part1 gw = true /\ Contains part2 (dst +:+ "/32") = true) ->
  exists w,
    run (metastonehack.checkAndAddRoute dst gw) h = (None, w)
    /\ hostOf w = h1
    /\ commands (trace w) = [ipRouteShow].
Proof.
  intros Hshow Hparts.
  assert (Hboth : Contains (part1 +:+ part2) (dst +:+ "/32") = true
                  /\ Contains (part1 +:+ part2) gw = true).
  { destruct Hparts as [[H1 H2] | [H1 H2]]; split;
      (apply Contains_append_l; assumption) || (apply Contains_append_r; assumption). }
  destruct Hboth as [Hdst Hgw].
  rewrite (checkAndAddRoute_present h h1 dst gw _ Hshow Hdst Hgw).
  eexists. repeat split.
Qed.

End RouteFrame.

(** ** More on the interface locator *)

Section LocatorFrame.
Variable parseIPv6 : string -> option net.IP.
Variable ipv6String : net.IP -> string.
Context {H : Type} `{Host H}.

#[local] Abbreviation locate := (metastonehack.getInterfaceNameByIP (H := H) parseIPv6).

Lemma getInterfaceNameByIP_world (h : H) ip :
  snd (run (locate ip) h) = {| hostOf := h; trace := [] |}.
Proof.
  unfold run, metastonehack.getInterfaceNameByIP.
  destruct (net.ParseIP parseIPv6 ip) as [targetIP|]; [|reflexivity].
  unfold bind, netlink_LinkList. cbn [hostOf].
  destruct (LinkList h) as [interfaces [e|]]; [reflexivity|].
  apply findInterface_reads_only.
Qed.

(** A name found by the outer loop is the name of a link of the list
    whose address listing succeeded and has the address. *)
Lemma findInterface_sound interfaces targetIP ip (w : World H) name :
  fst (metastonehack.findInterface interfaces targetIP ip w) = (name, None) ->
  exists l addrs,
    In l interfaces /\ Attrs_Name l = name
    /\ AddrList l (hostOf w) = (addrs, None)
    /\ existsb (fun addr => net.Equal (Addr_IP addr) targetIP) addrs = true.
Proof.
  induction interfaces as [|iface rest IH]; [discriminate|].
  cbn [metastonehack.findInterface]. unfold bind, netlink_AddrList, ret.
  destruct (AddrList iface (hostOf w)) as [addrs [e|]] eqn:Hlist; [discriminate|].
  destruct (metastonehack.ownsIP addrs targetIP) eqn:Howns.
  - cbn [fst]. intros Hname. injection Hname as <-.
    exists iface, addrs. rewrite <- ownsIP_existsb.
    split; [left; reflexivity|]. split; [reflexivity|]. split; [exact Hlist | exact Howns].
  - intros Hrest. destruct (IH Hrest) as (l & addrs' & Hin & Hrest').
    exists l, addrs'. split; [right; exact Hin | exact Hrest'].
Qed.

(** X10: Whatever the host answers, a name that [getInterfaceNameByIP] returns
    without error is the name of a listed link whose address listing
    succeeded and holds an address equal to the parsed one; and the
    function runs no command, writes nothing and leaves the host as it
    was, on every input. *)
Theorem getInterfaceNameByIP_sound (h : H) ip name :
  snd (run (locate ip) h) = {| hostOf := h; trace := [] |}
  /\ (fst (run (locate ip) h) = (name, None) ->
      exists targetIP interfaces l addrs,
        net.ParseIP parseIPv6 ip = Some targetIP
        /\ LinkList h = (interfaces, None)
        /\ In l interfaces /\ Attrs_Name l = name
        /\ AddrList l h = (addrs, None)
        /\ existsb (fun addr => net.Equal (Addr_IP addr) targetIP) addrs = true).
Proof.
  split; [apply getInterfaceNameByIP_world|].
  unfold run, metastonehack.getInterfaceNameByIP.
  destruct (net.ParseIP parseIPv6 ip) as [targetIP|]; [|discriminate].
  unfold bind, netlink_LinkList. cbn [hostOf].
  destruct (LinkList h) as [interfaces [e|]]; [discriminate|].
  intros Hfound. apply findInterface_sound in Hfound.
  destruct Hfound as (l & addrs & Hfound). exists targetIP, interfaces, l, addrs.
  repeat split; apply Hfound.
Qed.

(** X11: The search ends at the first link whose address listing fails: when
    the links before it list their addresses and do not own the address,
    the result is that link's listing error, whatever the links after it
    own. *)
Theorem getInterfaceNameByIP_stops_at_failed_listing
    (h : H) ip targetIP before iface after addrs e :
  net.ParseIP parseIPv6 ip = Some targetIP ->
  LinkList h = (before ++ iface :: after, None) ->
  Forall (fun l => exists addrs',
            AddrList l h = (addrs', None)
            /\ existsb (fun addr => net.Equal (Addr_IP addr) targetIP) addrs' = false)
         before ->
  AddrList iface h = (addrs, Some e) ->
  fst (run (locate ip) h)
  = ("", Some (metastonehack.ErrListAddrs (Attrs_Name iface) e)).
Proof.
  intros Hparse Hlinks Hbefore Hfail.
  unfold run, metastonehack.getInterfaceNameByIP. rewrite Hparse.
  unfold bind, netlink_LinkList. cbn [hostOf]. rewrite Hlinks. clear Hlinks.
  induction Hbefore as [|l before (addrs' & Hlist & Hnot) _ IH].
  - eapply findInterface_listing_fails. exact Hfail.
  - cbn [app metastonehack.findInterface]. unfold bind, netlink_AddrList, ret.
    cbn [hostOf]. rewrite Hlist, ownsIP_existsb, Hnot. exact IH.
Qed.

Lemma Equal_IPv4_short a b c d : net.Equal [a; b; c; d] (net.IPv4 a b c d) = true.
Proof. cbn. rewrite !N.eqb_refl. reflexivity. Qed.

(** X12: An IPv4 address that some link holds in its 4-byte form is found by
    its dotted text: when the host lists its links and their addresses,
    the lookup of a.b.c.d returns a name and no error. *)
Theorem getInterfaceNameByIP_finds_ipv4 (h : H) a b c d interfaces l addrs :
  (a < 256)%N -> (b < 256)%N -> (c < 256)%N -> (d < 256)%N ->
  LinkList h = (interfaces, None) ->
  Forall (fun l => snd (AddrList l h) = None) interfaces ->
  In l interfaces ->
  AddrList l h = (addrs, None) ->
  In {| Addr_IP := [a; b; c; d] |} addrs ->
  exists name,
    fst (run (locate (net.IP_String ipv6String [a; b; c; d])) h) = (name, None).
Proof.
  intros Ha Hb Hc Hd Hlinks Hall Hl Hlist Haddr.
  unfold run, metastonehack.getInterfaceNameByIP.
  rewrite ParseIP_dotted by assumption.
  unfold bind, netlink_LinkList. cbn [hostOf]. rewrite Hlinks.
  rewrite findInterface_first by exact Hall. cbn [hostOf].
  destruct (List.find _ interfaces) as [found|] eqn:Hfind; [eexists; reflexivity|].
  exfalso. pose proof (List.find_none _ _ Hfind l Hl) as Hnone.
  cbv beta in Hnone. rewrite Hlist, ownsIP_existsb in Hnone. cbn [fst] in Hnone.
  assert (Hsome : existsb (fun addr => net.Equal (Addr_IP addr) (net.IPv4 a b c d)) addrs
                  = true).
  { apply existsb_exists. eexists. split; [exact Haddr | apply Equal_IPv4_short]. }
  congruence.
Qed.

End LocatorFrame.

(** ** More on the client constructors *)

Section WorkloadFrame.
Import workloadcluster.
Context {H : Type} `{Host H}.
Variables RestConfig Scheme WorkloadClient K8sClient : Type.
Variable RESTConfigFromKubeConfig : string -> RestConfig * option goerror.
Variable Client_Scheme : Client -> Scheme.
Variable client_New : RestConfig -> Scheme -> WorkloadClient * option goerror.
Variable k8sclient_NewForConfig : RestConfig -> K8sClient * option goerror.

#[local] Abbreviation GenerateClient :=
  (GenerateWorkloadClusterClient (H := H) RestConfig Scheme WorkloadClient
     RESTConfigFromKubeConfig Client_Scheme client_New).
#[local] Abbreviation GenerateK8sClient :=
  (GenerateWorkloadClusterK8sClient (H := H) RestConfig K8sClient
     RESTConfigFromKubeConfig k8sclient_NewForConfig).

Ltac run_constructors :=
  unfold run, GenerateWorkloadClusterClient, GenerateWorkloadClusterK8sClient.

(** X13: When the kubeconfig cannot be fetched or the REST configuration
    cannot be made, both constructors return the same error and no
    client, and nothing is done to the host, also for a cluster whose
    labels ask for the route. *)
Theorem Generate_fails_before_touching_host w ctx (h : H) :
  snd (getKubeconfigForWorkloadCluster w ctx) <> None
  \/ snd (RESTConfigFromKubeConfig (fst (getKubeconfigForWorkloadCluster w ctx))) <> None ->
  exists e,
    run (GenerateClient w ctx) h = ((None, Some e), {| hostOf := h; trace := [] |})
    /\ run (GenerateK8sClient w ctx) h = ((None, Some e), {| hostOf := h; trace := [] |}).
Proof.
  intros Hfail. run_constructors.
  destruct (getKubeconfigForWorkloadCluster w ctx) as [kubeConfig [e|]];
    [eexists; split; reflexivity|].
  cbn [fst snd] in Hfail.
  destruct (RESTConfigFromKubeConfig kubeConfig) as [restConfig [e|]];
    [eexists; split; reflexivity|].
  cbn [snd] in Hfail. destruct Hfail as [Hfail | Hfail]; contradiction.
Qed.

(** X14: The kubeconfig is the "value" entry of the secret named after the
    cluster with the suffix -kubeconfig, in the namespace of the
    KubevirtCluster.  A failing read of that secret and a secret without
    that entry end the constructor with the wrapped messages. *)
Theorem kubeconfig_from_secret w ctx (h : H) :
  let key := {| Namespace := kc_Namespace (ctx_KubevirtCluster ctx);
                Name := Cluster_Name (ctx_Cluster ctx) +:+ "-kubeconfig" |} in
  (forall secret value,
      Get (wc_Client w) key = (secret, None) ->
      Data secret !! "value" = Some value ->
      getKubeconfigForWorkloadCluster w ctx = (value, None))
  /\ (forall secret e,
      Get (wc_Client w) key = (secret, Some e) ->
      exists err,
        fst (run (GenerateClient w ctx) h) = (None, Some err)
        /\ Error err
           = "failed to get kubeconfig for workload cluster: failed to fetch kubeconfig for workload cluster: "
             +:+ e)
  /\ (forall secret,
      Get (wc_Client w) key = (secret, None) ->
      Data secret !! "value" = None ->
      exists err,
        fst (run (GenerateClient w ctx) h) = (None, Some err)
        /\ Error err
           = "failed to get kubeconfig for workload cluster: error retrieving kubeconfig data: secret value key is missing").
Proof.
  intros key. split; [|split].
  - intros secret value Hget Hvalue. unfold getKubeconfigForWorkloadCluster.
    fold key. rewrite Hget, Hvalue. reflexivity.
  - intros secret e Hget. run_constructors. unfold getKubeconfigForWorkloadCluster.
    fold key. rewrite Hget. eexists. split; reflexivity.
  - intros secret Hget Hvalue. run_constructors. unfold getKubeconfigForWorkloadCluster.
    fold key. rewrite Hget, Hvalue. eexists. split; reflexivity.
Qed.

(** X15: The client is constructed after the host was reconfigured: when the
    gate is open and the constructor of the client fails, the function
    returns the wrapped error and no client, and the route add command
    and the marker write have been done all the same. *)
Theorem client_failure_after_reconfiguration
    w ctx (h : H) labels kubeConfig restConfig c e :
  getKubeconfigForWorkloadCluster w ctx = (kubeConfig, None) ->
  RESTConfigFromKubeConfig kubeConfig = (restConfig, None) ->
  Labels (ctx_KubevirtCluster ctx) = Some labels ->
  index labels "metastone/manager-gw" <> "" ->
  Spec_ControlPlaneEndpoint_Host (ctx_KubevirtCluster ctx) <> "" ->
  (forall fi, Stat (markerFile (Spec_ControlPlaneEndpoint_Host (ctx_KubevirtCluster ctx))) h
              <> (Some fi, None)) ->
  client_New restConfig (Client_Scheme (wc_Client w)) = (c, Some e) ->
  fst (run (GenerateClient w ctx) h)
  = (None, Some (Wrap (External e) "failed to create workload cluster client"))
  /\ In (ipRouteAdd (Spec_ControlPlaneEndpoint_Host (ctx_KubevirtCluster ctx) +:+ "/32")
                    (index labels "metastone/manager-gw"))
        (trace (snd (run (GenerateClient w ctx) h)))
  /\ In (Write (markerFile (Spec_ControlPlaneEndpoint_Host (ctx_KubevirtCluster ctx)))
               (index labels "metastone/manager-gw"))
        (trace (snd (run (GenerateClient w ctx) h))).
Proof.
  intros Hkube Hrest Hlabels Hgw Hhost Habsent Hnew.
  split.
  - rewrite (proj1 (Generate_results RestConfig Scheme WorkloadClient K8sClient
                      RESTConfigFromKubeConfig Client_Scheme client_New
                      k8sclient_NewForConfig w ctx h)).
    unfold clientFromKubeconfig. rewrite Hkube, Hrest, Hnew. reflexivity.
  - rewrite (proj1 (Generate_worlds RestConfig Scheme WorkloadClient K8sClient
                      RESTConfigFromKubeConfig Client_Scheme client_New
                      k8sclient_NewForConfig w ctx h kubeConfig restConfig Hkube Hrest)).
    destruct (routeViaManagerGW_reconfigures "GenerateWorkloadClusterClient" ctx h labels
                Hlabels Hgw Hhost Habsent) as (p1 & p2 & -> & _).
    split; [left; reflexivity | right; left; reflexivity].
Qed.

(** The name printed is all that tells the two blocks apart. *)
Lemma routeViaManagerGW_name_irrelevant fn fn' ctx (h : H) :
  hostOf (snd (run (routeViaManagerGW fn ctx) h))
  = hostOf (snd (run (routeViaManagerGW fn' ctx) h))
  /\ commands (trace (snd (run (routeViaManagerGW fn ctx) h)))
     = commands (trace (snd (run (routeViaManagerGW fn' ctx) h)))
  /\ writes (trace (snd (run (routeViaManagerGW fn ctx) h)))
     = writes (trace (snd (run (routeViaManagerGW fn' ctx) h))).
Proof.
  unfold run, routeViaManagerGW.
  destruct (Labels _) as [labels|]; [|repeat split].
  destruct (_ && _); [|repeat split].
  unfold bind, os_Stat, exec_Command, os_WriteFile, fmt_Printf, emit, ret.
  cbn [hostOf trace app].
  destruct (Stat _ h) as [[fi|] [e|]];
    cbn [hostOf trace app];
    repeat (match goal with
            | |- context [CombinedOutput ?n ?a ?x] =>
                destruct (CombinedOutput n a x) as [[? [?|]] ?]
            | |- context [WriteFile ?f ?d ?x] =>
                destruct (WriteFile f d x) as [? ?]
            end; cbn [snd fst hostOf trace app]);
    repeat split.
Qed.

(** X16: The two constructors do the same to the host: they leave it in the
    same state, having run the same commands and written the same files. *)
Theorem constructors_same_host_effect w ctx (h : H) :
  hostOf (snd (run (GenerateClient w ctx) h))
  = hostOf (snd (run (GenerateK8sClient w ctx) h))
  /\ commands (trace (snd (run (GenerateClient w ctx) h)))
     = commands (trace (snd (run (GenerateK8sClient w ctx) h)))
  /\ writes (trace (snd (run (GenerateClient w ctx) h)))
     = writes (trace (snd (run (GenerateK8sClient w ctx) h))).
Proof.
  destruct (getKubeconfigForWorkloadCluster w ctx) as [kubeConfig [e|]] eqn:Hkube.
  { run_constructors. rewrite Hkube. repeat split. }
  destruct (RESTConfigFromKubeConfig kubeConfig) as [restConfig [e|]] eqn:Hrest.
  { run_constructors. rewrite Hkube, Hrest. repeat split. }
  destruct (Generate_worlds RestConfig Scheme WorkloadClient K8sClient
              RESTConfigFromKubeConfig Client_Scheme client_New
              k8sclient_NewForConfig w ctx h kubeConfig restConfig Hkube Hrest) as [-> ->].
  apply routeViaManagerGW_name_irrelevant.
Qed.

End WorkloadFrame.

(** ** The marker on the simulated host *)

Section MarkerOnSimulatedHost.
Import workloadcluster.
Variables RestConfig Scheme WorkloadClient K8sClient : Type.
Variable RESTConfigFromKubeConfig : string -> RestConfig * option goerror.
Variable Client_Scheme : Client -> Scheme.
Variable client_New : RestConfig -> Scheme -> WorkloadClient * option goerror.
Variable k8sclient_NewForConfig : RestConfig -> K8sClient * option goerror.

#[local] Abbreviation simClient :=
  (GenerateWorkloadClusterClient (H := SimHost) RestConfig Scheme WorkloadClient
     RESTConfigFromKubeConfig Client_Scheme client_New).
#[local] Abbreviation simK8sClient :=
  (GenerateWorkloadClusterK8sClient (H := SimHost) RestConfig K8sClient
     RESTConfigFromKubeConfig k8sclient_NewForConfig).

(** The host the block leaves when the gate is open, on any host. *)
Lemma routeViaManagerGW_final_host {H : Type} `{Host H} fn ctx (h : H) labels :
  Labels (ctx_KubevirtCluster ctx) = Some labels ->
  index labels "metastone/manager-gw" <> "" ->
  Spec_ControlPlaneEndpoint_Host (ctx_KubevirtCluster ctx) <> "" ->
  (forall fi, Stat (markerFile (Spec_ControlPlaneEndpoint_Host (ctx_KubevirtCluster ctx))) h
              <> (Some fi, None)) ->
  hostOf (snd (run (routeViaManagerGW fn ctx) h))
  = snd (CombinedOutput "/usr/sbin/sysctl" ["-w"; "net.ipv4.tcp_mtu_probing=1"]
      (snd (CombinedOutput "/usr/sbin/ethtool" ["--offload"; "net1"; "tx"; "off"]
        (snd (WriteFile (markerFile (Spec_ControlPlaneEndpoint_Host (ctx_KubevirtCluster ctx)))
                (index labels "metastone/manager-gw")
          (snd (CombinedOutput "ip"
                  ["route"; "add";
                   Spec_ControlPlaneEndpoint_Host (ctx_KubevirtCluster ctx) +:+ "/32";
                   "via"; index labels "metastone/manager-gw"] h))))))).
Proof.
  intros Hlabels Hgw Hhost Hstat.
  unfold run, routeViaManagerGW, markerFile in *. rewrite Hlabels.
  apply String.eqb_neq in Hgw, Hhost. rewrite Hgw, Hhost. cbn [negb andb].
  unfold bind, os_Stat, exec_Command, os_WriteFile, fmt_Printf, emit, ret.
  cbn [hostOf trace app].
  destruct (Stat _ h) as [[fi|] [e|]] eqn:E;
    try (exfalso; exact (Hstat fi eq_refl));
    cbn [hostOf trace app];
    repeat (match goal with
            | |- context [CombinedOutput ?n ?a ?x] =>
                is_var x; destruct (CombinedOutput n a x) as [[? [?|]] ?]
            | |- context [WriteFile ?f ?d ?x] =>
                is_var x; destruct (WriteFile f d x) as [? ?]
            end; cbn [snd fst hostOf trace app]);
    reflexivity.
Qed.

Lemma sim_add_keeps_files d gw (h : SimHost) :
  files (snd (simCombinedOutput "ip" ["route"; "add"; d; "via"; gw] h)) = files h.
Proof.
  unfold simCombinedOutput. destruct (isBroken "ip" h); [reflexivity|].
  cbn. destruct (hasRoute d (routes h)); reflexivity.
Qed.

Lemma sim_ethtool_keeps_host iface (h : SimHost) :
  snd (simCombinedOutput "/usr/sbin/ethtool" ["--offload"; iface; "tx"; "off"] h) = h.
Proof.
  unfold simCombinedOutput. destruct (isBroken _ h); reflexivity.
Qed.

Lemma sim_sysctl_keeps_host (h : SimHost) :
  snd (simCombinedOutput "/usr/sbin/sysctl" ["-w"; "net.ipv4.tcp_mtu_probing=1"] h) = h.
Proof.
  unfold simCombinedOutput. destruct (isBroken _ h); reflexivity.
Qed.

(** After the block has run on the simulated host, a second run of the
    block, under either name, does nothing. *)
Lemma sim_block_twice fn fn' ctx (h : SimHost) :
  let h' := hostOf (snd (run (routeViaManagerGW fn ctx) h)) in
  routeViaManagerGW fn' ctx {| hostOf := h'; trace := [] |}
  = (tt, {| hostOf := h'; trace := [] |}).
Proof.
  intros h'. apply routeViaManagerGW_skips. cbn [hostOf]. subst h'.
  destruct (Labels (ctx_KubevirtCluster ctx)) as [labels|] eqn:Hlabels;
    [|left; exact Hlabels].
  destruct (String.eqb_spec (index labels "metastone/manager-gw") "") as [Hgw | Hgw];
    [right; left; exists labels; split; [exact Hlabels | exact Hgw]|].
  destruct (String.eqb_spec (Spec_ControlPlaneEndpoint_Host (ctx_KubevirtCluster ctx)) "")
    as [Hhost | Hhost]; [right; right; left; exact Hhost|].
  right; right; right.
  destruct (files h !! markerFile (Spec_ControlPlaneEndpoint_Host (ctx_KubevirtCluster ctx)))
    as [data|] eqn:Hfile.
  - assert (Hclosed : gateClosed ctx h).
    { right; right; right. eexists. cbn. unfold simStat. rewrite Hfile. reflexivity. }
    unfold run.
    rewrite (routeViaManagerGW_skips fn ctx {| hostOf := h; trace := [] |} Hclosed).
    cbn [snd hostOf].
    eexists. cbn. unfold simStat. rewrite Hfile. reflexivity.
  - rewrite (routeViaManagerGW_final_host fn ctx h labels Hlabels Hgw Hhost).
    2:{ intros fi. cbn. unfold simStat. rewrite Hfile. discriminate. }
    cbn [CombinedOutput WriteFile Stat simHost].
    rewrite sim_sysctl_keeps_host, sim_ethtool_keeps_host.
    unfold simWriteFile, simStat. cbn [snd files withFiles].
    rewrite lookup_insert_eq. eexists. reflexivity.
Qed.

(** X17: On the simulated host the marker makes the reconfiguration a one-off:
    after one call of a constructor, whatever its commands returned, a
    further call of either constructor runs no command, writes nothing
    and leaves the host as it is. *)
Theorem simulated_marker_blocks_second_run w ctx (h : SimHost) :
  let once := hostOf (snd (run (simClient w ctx) h)) in
  snd (run (simClient w ctx) once) = {| hostOf := once; trace := [] |}
  /\ snd (run (simK8sClient w ctx) once) = {| hostOf := once; trace := [] |}.
Proof.
  intros once. subst once.
  destruct (getKubeconfigForWorkloadCluster w ctx) as [kubeConfig [e|]] eqn:Hkube.
  { unfold run, GenerateWorkloadClusterClient, GenerateWorkloadClusterK8sClient.
    rewrite Hkube. split; reflexivity. }
  destruct (RESTConfigFromKubeConfig kubeConfig) as [restConfig [e|]] eqn:Hrest.
  { unfold run, GenerateWorkloadClusterClient, GenerateWorkloadClusterK8sClient.
    rewrite Hkube, Hrest. split; reflexivity. }
  pose proof (fun x => Generate_worlds RestConfig Scheme WorkloadClient K8sClient
              RESTConfigFromKubeConfig Client_Scheme client_New
              k8sclient_NewForConfig w ctx x kubeConfig restConfig Hkube Hrest) as Hworlds.
  rewrite (proj1 (Hworlds h)).
  rewrite (proj1 (Hworlds _)), (proj2 (Hworlds _)).
  split.
  - exact (f_equal snd (sim_block_twice _ "GenerateWorkloadClusterClient" ctx h)).
  - exact (f_equal snd (sim_block_twice _ "GenerateWorkloadClusterK8sClient" ctx h)).
Qed.

End MarkerOnSimulatedHost.

(** ** The further properties at concrete inputs *)

Section ConcreteFurther.
Import metastonehack workloadcluster scenes.

#[local] Abbreviation labelledClient newClient :=
  (GenerateWorkloadClusterClient (H := SimHost) string unit string
     demo.restConfigOf demo.schemeOf newClient).
#[local] Abbreviation labelledK8sClient :=
  (GenerateWorkloadClusterK8sClient (H := SimHost) string string
     demo.restConfigOf demo.newK8sClient).

(** The subnet of the end-to-end scenario. *)
Lemma managerGW_of_dotted_cidr_witness :
  managerGWOfSubnet noIPv6 noIPv6String "192.168.10.0/24" = ("192.168.10.2", None)
  /\ managerGWOfSubnet noIPv6 noIPv6String "192.168.10.77/28"
     = managerGWOfSubnet noIPv6 noIPv6String "192.168.10.0/24".
Proof.
  assert (H24 : (24 <= 32)%N) by lia. assert (H28 : (28 <= 32)%N) by lia.
  pose proof (managerGW_of_dotted_cidr noIPv6 noIPv6String 192 168 10 0 24
                eq_refl eq_refl eq_refl eq_refl H24) as [Hgw Hsame].
  split; [exact Hgw | exact (Hsame 77%N 28%N eq_refl H28)].
Defined.

Lemma managerGW_parses_back_witness :
  net.ParseIP noIPv6 "192.168.10.2" = Some (net.IPv4 192 168 10 2)
  /\ managerGWOfSubnet noIPv6 noIPv6String "192.168.10.2/32" = ("192.168.10.2", None).
Proof.
  assert (H24 : (24 <= 32)%N) by lia. assert (H32 : (32 <= 32)%N) by lia.
  pose proof (managerGW_parses_back noIPv6 noIPv6String 192 168 10 0 24
                eq_refl eq_refl eq_refl eq_refl H24) as [Hparse Hfix].
  split; [exact Hparse | exact (Hfix 32%N H32)].
Defined.

(** 10.4.0.200/25 is the network 10.4.0.128/25; 10.4.0.2 is not in it. *)
Lemma managerGW_outside_long_prefix_witness :
  exists ip network gw,
    net.ParseCIDR noIPv6 "10.4.0.200/25" = Some (ip, network)
    /\ subnet.Contains network ip = true
    /\ managerGWOfSubnet noIPv6 noIPv6String "10.4.0.200/25" = (gw, None)
    /\ net.ParseIP noIPv6 gw = Some (net.IPv4 10 4 0 2)
    /\ subnet.Contains network (net.IPv4 10 4 0 2) = false.
Proof.
  refine (managerGW_outside_long_prefix noIPv6 noIPv6String 10 4 0 200 25
            eq_refl eq_refl eq_refl _ _); lia.
Defined.

Lemma not_ipv4_message_omits_subnet_witness :
  exists e,
    managerGWOfSubnet onlyDocV6 noIPv6String "2001:db8::/32" = ("", Some e)
    /\ metastonehack.Error e
       = "unexpected configuration: ten-mng in namespace ten-mng's subnet <nil> is not IPv4".
Proof.
  exact (not_ipv4_message_omits_subnet onlyDocV6 noIPv6String "2001:db8::/32" _ _
           eq_refl eq_refl).
Defined.

(** A table that shows the destination, and a host whose query fails. *)
Lemma checkAndAddRoute_adds_iff_absent_witness :
  occurrences (ipRouteAdd "203.0.113.5/32" "192.168.10.2")
    (trace (snd (run (checkAndAddRoute "203.0.113.5" "192.168.10.2") demo.routedElsewhere)))
  = 0
  /\ occurrences (ipRouteAdd "203.0.113.5/32" "192.168.10.2")
       (trace (snd (run (checkAndAddRoute "203.0.113.5" "192.168.10.2") scenes.noIp)))
     = 0
  /\ occurrences (ipRouteAdd "203.0.113.5/32" "192.168.10.2")
       (trace (snd (run (checkAndAddRoute "203.0.113.5" "192.168.10.2") emptyHost)))
     = 1.
Proof.
  split; [|split].
  - exact (checkAndAddRoute_adds_iff_absent demo.routedElsewhere demo.routedElsewhere
             "203.0.113.5" "192.168.10.2" _ None eq_refl).
  - exact (checkAndAddRoute_adds_iff_absent scenes.noIp scenes.noIp
             "203.0.113.5" "192.168.10.2" "" (Some "exit status 1") eq_refl).
  - exact (checkAndAddRoute_adds_iff_absent emptyHost emptyHost
             "203.0.113.5" "192.168.10.2" "" None eq_refl).
Defined.

(** The destination is routed via 10.0.0.9 and the gateway asked for is
    the default gateway of the host. *)
Lemma checkAndAddRoute_strings_apart_witness :
  exists w,
    run (checkAndAddRoute "203.0.113.5" "192.168.10.2") scenes.gatewayOfAnotherRoute
    = (None, w)
    /\ hostOf w = scenes.gatewayOfAnotherRoute
    /\ commands (trace w) = [ipRouteShow].
Proof.
  refine (checkAndAddRoute_strings_apart scenes.gatewayOfAnotherRoute
            scenes.gatewayOfAnotherRoute "203.0.113.5" "192.168.10.2"
            (showRoute {| dst := "203.0.113.5/32"; via := "10.0.0.9"; dev := "net1" |})
            (showRoutes [{| dst := "default"; via := "192.168.10.2"; dev := "net0" |}])
            eq_refl _).
  left. split; reflexivity.
Defined.

Lemma getInterfaceNameByIP_sound_witness :
  exists targetIP interfaces l addrs,
    net.ParseIP noIPv6 "192.168.10.7" = Some targetIP
    /\ LinkList demo.twoLinks = (interfaces, None)
    /\ In l interfaces /\ Attrs_Name l = "net1"
    /\ AddrList l demo.twoLinks = (addrs, None)
    /\ existsb (fun addr => net.Equal (Addr_IP addr) targetIP) addrs = true.
Proof.
  exact (proj2 (getInterfaceNameByIP_sound noIPv6 demo.twoLinks "192.168.10.7" "net1")
           eq_refl).
Defined.

(** The first link cannot be read and the second has the address. *)
Lemma getInterfaceNameByIP_stops_at_failed_listing_witness :
  fst (run (getInterfaceNameByIP noIPv6 "192.168.10.7") scenes.firstLinkUnreadable)
  = ("", Some (ErrListAddrs "net0" "operation not permitted")).
Proof.
  exact (getInterfaceNameByIP_stops_at_failed_listing noIPv6 scenes.firstLinkUnreadable
           "192.168.10.7" _ [] {| Attrs_Name := "net0"; Attrs_Index := 1 |}
           [{| Attrs_Name := "net1"; Attrs_Index := 2 |}] [] "operation not permitted"
           eq_refl eq_refl (List.Forall_nil _) eq_refl).
Defined.

Lemma getInterfaceNameByIP_finds_ipv4_witness :
  exists name,
    fst (run (getInterfaceNameByIP noIPv6 "192.168.10.7") demo.twoLinks) = (name, None).
Proof.
  refine (getInterfaceNameByIP_finds_ipv4 noIPv6 noIPv6String demo.twoLinks
            192 168 10 7 _ {| Attrs_Name := "net1"; Attrs_Index := 2 |} _
            eq_refl eq_refl eq_refl eq_refl eq_refl _ _ eq_refl _).
  - repeat constructor.
  - right; left; reflexivity.
  - left; reflexivity.
Defined.

(** The kubeconfig secret has no "value" entry; the cluster is labelled. *)
Lemma Generate_fails_before_touching_host_witness :
  exists e,
    run (labelledClient demo.newClient {| wc_Client := scenes.secretWithoutValue |}
           demo.labelled) emptyHost
    = ((None, Some e), {| hostOf := emptyHost; trace := [] |})
    /\ run (labelledK8sClient {| wc_Client := scenes.secretWithoutValue |} demo.labelled)
           emptyHost
       = ((None, Some e), {| hostOf := emptyHost; trace := [] |}).
Proof.
  refine (Generate_fails_before_touching_host string unit string string
            demo.restConfigOf demo.schemeOf demo.newClient demo.newK8sClient
            {| wc_Client := scenes.secretWithoutValue |} demo.labelled emptyHost _).
  left. vm_compute. discriminate.
Defined.

Lemma kubeconfig_from_secret_witness :
  getKubeconfigForWorkloadCluster demo.wc demo.labelled = ("apiVersion: v1", None)
  /\ (exists err,
        fst (run (labelledClient demo.newClient {| wc_Client := scenes.unreachable |}
                    demo.labelled) emptyHost) = (None, Some err)
        /\ workloadcluster.Error err
           = "failed to get kubeconfig for workload cluster: failed to fetch kubeconfig for workload cluster: connection refused")
  /\ (exists err,
        fst (run (labelledClient demo.newClient
                    {| wc_Client := scenes.secretWithoutValue |} demo.labelled) emptyHost)
        = (None, Some err)
        /\ workloadcluster.Error err
           = "failed to get kubeconfig for workload cluster: error retrieving kubeconfig data: secret value key is missing").
Proof.
  split; [|split].
  - refine (proj1 (kubeconfig_from_secret string unit string
                     demo.restConfigOf demo.schemeOf demo.newClient
                     demo.wc demo.labelled emptyHost) _ _ eq_refl _).
    vm_compute. reflexivity.
  - exact (proj1 (proj2 (kubeconfig_from_secret string unit string
                     demo.restConfigOf demo.schemeOf demo.newClient
                     {| wc_Client := scenes.unreachable |} demo.labelled emptyHost))
             _ "connection refused" eq_refl).
  - refine (proj2 (proj2 (kubeconfig_from_secret string unit string
                     demo.restConfigOf demo.schemeOf demo.newClient
                     {| wc_Client := scenes.secretWithoutValue |} demo.labelled emptyHost))
             _ eq_refl _).
    vm_compute. reflexivity.
Defined.

(** The labelled cluster, no marker, and a client constructor that fails. *)
Lemma client_failure_after_reconfiguration_witness :
  fst (run (labelledClient scenes.failingNewClient demo.wc demo.labelled) emptyHost)
  = (None, Some (Wrap (External "no kind is registered")
                      "failed to create workload cluster client"))
  /\ In (ipRouteAdd "203.0.113.5/32" "192.168.10.2")
        (trace (snd (run (labelledClient scenes.failingNewClient demo.wc demo.labelled)
                       emptyHost)))
  /\ In (Write "/metastone/203.0.113.5" "192.168.10.2")
        (trace (snd (run (labelledClient scenes.failingNewClient demo.wc demo.labelled)
                       emptyHost))).
Proof.
  assert (Hgw : index {["metastone/manager-gw" := "192.168.10.2"]} "metastone/manager-gw"
                <> "") by (vm_compute; discriminate).
  assert (Hhost : "203.0.113.5" <> "") by discriminate.
  refine (client_failure_after_reconfiguration string unit string string
            demo.restConfigOf demo.schemeOf scenes.failingNewClient demo.newK8sClient
            demo.wc demo.labelled emptyHost _ "apiVersion: v1" "apiVersion: v1"
            "" "no kind is registered" eq_refl eq_refl eq_refl Hgw Hhost _ eq_refl).
  intros fi. vm_compute. discriminate.
Defined.

End ConcreteFurther.

(** ** The route reconciler on a host that lists host routes the short way *)

Section ShortListing.
Import metastonehack plainhost.


End ShortListing.
